(** * Position lifecycle and capital allocation of the funding-rate
    arbitrage engine

  Shallow embedding of [trading_rules.py] (class [TradingRulesManager]) and
  [arbitrage_engine.py] (class [ArbitrageEngine]).

  Number model.  Python [float]s are embedded as exact rationals [Q]
  (equality is [==]); [int]s as [Z].  A second, small module [Binary64]
  embeds the capital allocation on IEEE binary64 values, the type the
  interpreter really computes with, so that its exact-equality statement
  can be evaluated on concrete inputs.

  Effects.  The engine object is a record passed explicitly; every
  operation returns its result together with the new engine.  The exchange
  client is a record of answers, one per request; [time.time()] is the
  argument [now], read once per public operation.  Module [Timed] repeats
  the entry with one reading per rule lookup, for the statements that
  depend on the cache expiring between two lookups of one call. *)

From stdpp Require Import gmap strings list.
From Stdlib Require Import Ascii String ZArith QArith Qround Qabs Qminmax.
From Stdlib Require Import Lqa Lia Bool Sorted.
From Stdlib Require Floats.PrimFloat.

(** ** Python builtins on numbers *)

Module Py.
Local Open Scope Q_scope.

Definition ltb (x y : Q) : bool := negb (Qle_bool y x).
Definition leb (x y : Q) : bool := Qle_bool x y.

(** [bool(x)] of a float: false exactly at zero. *)
Definition truthy (x : Q) : bool := negb (Qeq_bool x 0).

(** [min(a, b)] and [max(a, b)]: the first argument is kept unless the
    second is strictly better. *)
Definition min (a b : Q) : Q := if ltb b a then b else a.
Definition max (a b : Q) : Q := if ltb a b then b else a.

(** [round(x)]: nearest integer, ties to the even neighbour. *)
Definition round (x : Q) : Z :=
  let f := Qfloor x in
  match Qcompare (x - inject_Z f) (1 # 2) with
  | Lt => f
  | Gt => (f + 1)%Z
  | Eq => if Z.even f then f else (f + 1)%Z
  end.

Definition pow10 (n : nat) : Q := inject_Z (10 ^ Z.of_nat n).

(** [round(x, n)] for a digit count [n >= 0]. *)
Definition round_ndigits (x : Q) (n : nat) : Q :=
  inject_Z (round (x * pow10 n)) / pow10 n.

(** [int(x)]: truncation towards zero. *)
Definition int (x : Q) : Z := Z.quot (Qnum x) (Zpos (Qden x)).

(** [a % b] for [b <> 0]: the remainder takes the sign of [b]. *)
Definition mod_ (a b : Q) : Q := a - b * inject_Z (Qfloor (a / b)).

(** [s.endswith(suffix)] *)
Definition endswith (s suffix : string) : bool :=
  let n := String.length s in
  let k := String.length suffix in
  (k <=? n)%nat && String.eqb (String.substring (n - k) k s) suffix.

(** [needle in s] *)
Definition contains (needle s : string) : bool :=
  match String.index 0 needle s with Some _ => true | None => false end.

(** [s.replace('USDT', 'PERP')]: every occurrence, left to right. *)
Fixpoint replace_USDT_PERP (s : string) : string :=
  match s with
  | String "U"%char (String "S"%char (String "D"%char (String "T"%char rest))) =>
      String "P"%char (String "E"%char (String "R"%char
        (String "P"%char (replace_USDT_PERP rest))))
  | String c rest => String c (replace_USDT_PERP rest)
  | EmptyString => EmptyString
  end.
End Py.

(** ** The exchange client, as seen by the engine *)

Inductive Category := Spot | Linear.
Inductive Side := Buy | Sell.

(** Answer of a signed POST request: [retCode == 0] with the order id found
  under [result.orderId], a non-zero [retCode] with its [retMsg], or an
  exception escaping the client. *)
Inductive Response :=
| RetOk (orderId : option string)
| RetErr (retMsg : option string)
| Raised.

Module MarketRules.
(** The dictionary built by [_get_spot_rules] / [_get_linear_rules].  The
    spot dictionary built from an exchange answer carries no
    ['max_leverage'] key; that field is only ever read on the linear one. *)
Record t := mk {
  min_order_qty : Q;
  max_order_qty : Q;
  qty_step : Q;
  min_order_amt : Q;
  max_order_amt : Q;
  price_precision : nat;
  qty_precision : nat;
  max_leverage : Q;
  status : string
}.
End MarketRules.

Module Ticker.
Record t := mk { lastPrice : Q; fundingRate : option Q }.
End Ticker.

Module PositionData.
(** One element of [result.list] of the position endpoint, after the
    [float(...)] conversions.  The engine only asks whether [side] is
    ["Buy"]; [Sell] stands for every other value. *)
Record t := mk {
  symbol : string;
  size : Q;
  side : Side;
  avgPrice : Q;
  unrealisedPnl : Q
}.
End PositionData.

Module Client.
(** Each field is the parsed answer to one request; [None] stands for a
    non-zero [retCode], an empty [result.list] or a caught exception.
    [get_positions] and [get_account_balance] list the entries that the
    caller's loop manages to process. *)
Record t := mk {
  demo : bool;
  get_instruments_info : Category -> string -> option MarketRules.t;
  get_tickers : Category -> string -> option Ticker.t;
  place_order : string -> Side -> Q -> Category -> Response;
  set_leverage : string -> Z -> Response;
  cancel_order : string -> string -> Category -> Response;
  get_positions : option (list PositionData.t);
  get_account_balance : option (list (string * Q))
}.
End Client.

(** ** trading_rules.py *)

Module Rules.
Record t := mk {
  symbol : string;
  spot : MarketRules.t;
  linear : MarketRules.t;
  last_updated : Q
}.
End Rules.

Module Tips.
(** The dictionary returned by [get_trading_tips] (the advisory strings
    are left out). *)
Record leg := mk_leg {
  min_qty : Q;
  min_amount : Q;
  max_leverage : Q;
  qty_precision : nat;
  price_precision : nat;
  qty_step : Q
}.
Record t := mk {
  symbol : string;
  min_investment : Q;
  spot_rules : leg;
  linear_rules : leg
}.
End Tips.

Inductive OrderError :=
| QtyBelowMin
| QtyAboveMax
| QtyNotMultipleOfStep
| AmountBelowMin
| AmountAboveMax.

Module TradingRulesManager.
Local Open Scope Q_scope.

Record t := mk {
  rules_cache : gmap string Rules.t;
  cache_time : Q
}.

(** [__init__] *)
Definition init : t := {| rules_cache := ∅; cache_time := 0 |}.

Definition cache_duration : Q := 3600.

Definition _get_default_rules : MarketRules.t :=
  {| MarketRules.min_order_qty := 1 # 1000;
     MarketRules.max_order_qty := 1000;
     MarketRules.qty_step := 1 # 1000;
     MarketRules.min_order_amt := 5;
     MarketRules.max_order_amt := 100000;
     MarketRules.price_precision := 2;
     MarketRules.qty_precision := 3;
     MarketRules.max_leverage := 5;
     MarketRules.status := "Trading" |}.

Definition _get_spot_rules (c : Client.t) (symbol : string) : MarketRules.t :=
  match Client.get_instruments_info c Spot symbol with
  | Some r => r
  | None => _get_default_rules
  end.

Definition _get_linear_rules (c : Client.t) (symbol : string) : MarketRules.t :=
  match Client.get_instruments_info c Linear symbol with
  | Some r => r
  | None => _get_default_rules
  end.

Definition demo_limits : list (string * Q) :=
  [("BTCUSDT", 5); ("ETHUSDT", 5); ("SOLUSDT", 5); ("ADAUSDT", 10);
   ("DOTUSDT", 5); ("LINKUSDT", 5); ("UNIUSDT", 5); ("LTCUSDT", 5);
   ("BCHUSDT", 5); ("XRPUSDT", 10); ("AVAXUSDT", 5); ("ATOMUSDT", 5);
   ("NEARUSDT", 10)]%string.

Fixpoint assoc_get (k : string) (l : list (string * Q)) (d : Q) : Q :=
  match l with
  | [] => d
  | (k', v) :: l' => if String.eqb k k' then v else assoc_get k l' d
  end.

Definition _get_demo_min_qty (symbol : string) : Q :=
  assoc_get symbol demo_limits 5.

Definition _is_cache_valid (m : t) (now : Q) : bool :=
  Py.ltb (now - cache_time m) cache_duration.

Definition get_trading_rules (c : Client.t) (now : Q) (m : t)
    (symbol : string) (force_refresh : bool) : Rules.t * t :=
  match (if negb force_refresh && _is_cache_valid m now
         then rules_cache m !! symbol else None) with
  | Some cached => (cached, m)
  | None =>
      let spot_rules := _get_spot_rules c symbol in
      let linear_rules := _get_linear_rules c symbol in
      let rules := {| Rules.symbol := symbol;
                      Rules.spot := spot_rules;
                      Rules.linear := linear_rules;
                      Rules.last_updated := now |} in
      (rules, {| rules_cache := <[symbol := rules]> (rules_cache m);
                 cache_time := now |})
  end.

Definition estimated_price (symbol : string) : Q :=
  if Py.contains "ETH" symbol then 4500
  else if Py.contains "BTC" symbol then 50000
  else 100.

(** Defined for [leverage >= 1]; the divisions raise at [leverage = 0]. *)
Definition get_min_investment_amount (c : Client.t) (now : Q) (m : t)
    (symbol : string) (leverage : Z) : Q * t :=
  let '(rules, m1) := get_trading_rules c now m symbol false in
  if Client.demo c then
    let demo_min_qty := _get_demo_min_qty symbol in
    let demo_min_amount := demo_min_qty * estimated_price symbol in
    let spot_ratio := inject_Z leverage / inject_Z (leverage + 1) in
    let min_amount := demo_min_amount / spot_ratio * (12 # 10) in
    (Py.round_ndigits min_amount 2, m1)
  else
    let spot_min := MarketRules.min_order_amt (Rules.spot rules) in
    let linear_min :=
      MarketRules.min_order_amt (Rules.linear rules) / inject_Z leverage in
    let min_amount := Py.max spot_min linear_min * (12 # 10) in
    (Py.round_ndigits min_amount 2, m1).

Definition rule_of (rules : Rules.t) (category : Category) : MarketRules.t :=
  match category with
  | Spot => Rules.spot rules
  | Linear => Rules.linear rules
  end.

(** Returns [None] for [(True, ...)] and [Some e] for [(False, message)]. *)
Definition validate_order_params (c : Client.t) (now : Q) (m : t)
    (symbol : string) (qty price : Q) (category : Category)
    : option OrderError * t :=
  let '(rules, m1) := get_trading_rules c now m symbol false in
  let rule := rule_of rules category in
  if Py.ltb qty (MarketRules.min_order_qty rule) then (Some QtyBelowMin, m1)
  else if Py.ltb (MarketRules.max_order_qty rule) qty then (Some QtyAboveMax, m1)
  else if Py.ltb 0 (MarketRules.qty_step rule)
          && (let remainder := Py.mod_ qty (MarketRules.qty_step rule) in
              Py.ltb (1 # 10000000000) (Qabs remainder)
              && Py.ltb (1 # 10000000000)
                        (Qabs (remainder - MarketRules.qty_step rule)))
  then (Some QtyNotMultipleOfStep, m1)
  else
    let amount := qty * price in
    if Py.ltb amount (MarketRules.min_order_amt rule) then (Some AmountBelowMin, m1)
    else if Py.ltb (MarketRules.max_order_amt rule) amount then (Some AmountAboveMax, m1)
    else (None, m1).

Definition leg_of (r : MarketRules.t) : Tips.leg :=
  {| Tips.min_qty := MarketRules.min_order_qty r;
     Tips.min_amount := MarketRules.min_order_amt r;
     Tips.max_leverage := MarketRules.max_leverage r;
     Tips.qty_precision := MarketRules.qty_precision r;
     Tips.price_precision := MarketRules.price_precision r;
     Tips.qty_step := MarketRules.qty_step r |}.

Definition get_trading_tips (c : Client.t) (now : Q) (m : t)
    (symbol : string) : Tips.t * t :=
  let '(rules, m1) := get_trading_rules c now m symbol false in
  let '(min_investment, m2) := get_min_investment_amount c now m1 symbol 1 in
  ({| Tips.symbol := symbol;
      Tips.min_investment := min_investment;
      Tips.spot_rules := leg_of (Rules.spot rules);
      Tips.linear_rules := leg_of (Rules.linear rules) |}, m2).
End TradingRulesManager.

(** ** arbitrage_engine.py: the data classes *)

Module Position.
Record t := mk {
  symbol : string;
  spot_qty : Q;
  futures_qty : Q;
  spot_avg_price : Q;
  futures_avg_price : Q;
  unrealized_pnl : Q;
  funding_paid : Q;
  entry_time : Q;
  leverage : Z;
  total_investment : Q;
  spot_investment : Q;
  futures_investment : Q
}.

(** Attribute assignments [pos.field = v]. *)
Definition set_spot_qty (v : Q) (p : t) : t :=
  mk (symbol p) v (futures_qty p) (spot_avg_price p) (futures_avg_price p)
     (unrealized_pnl p) (funding_paid p) (entry_time p) (leverage p)
     (total_investment p) (spot_investment p) (futures_investment p).
Definition set_futures_qty (v : Q) (p : t) : t :=
  mk (symbol p) (spot_qty p) v (spot_avg_price p) (futures_avg_price p)
     (unrealized_pnl p) (funding_paid p) (entry_time p) (leverage p)
     (total_investment p) (spot_investment p) (futures_investment p).
Definition set_futures_avg_price (v : Q) (p : t) : t :=
  mk (symbol p) (spot_qty p) (futures_qty p) (spot_avg_price p) v
     (unrealized_pnl p) (funding_paid p) (entry_time p) (leverage p)
     (total_investment p) (spot_investment p) (futures_investment p).
Definition set_unrealized_pnl (v : Q) (p : t) : t :=
  mk (symbol p) (spot_qty p) (futures_qty p) (spot_avg_price p)
     (futures_avg_price p) v (funding_paid p) (entry_time p) (leverage p)
     (total_investment p) (spot_investment p) (futures_investment p).
End Position.

Module ClosedPosition.
Record t := mk {
  symbol : string;
  spot_qty : Q;
  futures_qty : Q;
  spot_avg_price : Q;
  futures_avg_price : Q;
  close_spot_qty : Q;
  close_futures_qty : Q;
  close_spot_price : Q;
  close_futures_price : Q;
  total_pnl : Q;
  entry_time : Q;
  close_time : Q;
  leverage : Z;
  total_investment : Q;
  spot_investment : Q;
  futures_investment : Q;
  funding_paid : Q
}.
End ClosedPosition.

(** The [message] of a [TradingResult], one constructor per format string. *)
Inductive Message :=
| LeverageOutOfRange (max_leverage : Q) (leverage : Z)
| BelowMinInvestment (total_amount min_investment : Q)
| NoPriceInfo
| InvalidQuantity (spot_qty futures_qty : Q)
| SpotParamsInvalid (e : OrderError)
| FuturesParamsInvalid (e : OrderError)
| SpotBuyFailed (retMsg : option string)
| FuturesSellFailed (retMsg : option string)
| ArbitrageDone (spot_qty futures_qty : Q)
| ArbitrageRaised
| PositionNotFound
| SpotSellFailed (retMsg : option string)
| FuturesBuyFailed (retMsg : option string)
| CloseDone (total_pnl : Q) (position_closed : bool) (remaining_spot : Q)
| CloseRaised.

Module TradingResult.
Record t := mk {
  success : bool;
  message : Message;
  spot_order_id : option string;
  futures_order_id : option string;
  spot_qty : Q;
  futures_qty : Q;
  spot_price : Q;
  futures_price : Q;
  total_cost : Q
}.

(** [TradingResult(False, message)]: the other fields take their defaults. *)
Definition failed (msg : Message) : t :=
  mk false msg None None 0 0 0 0 0.
End TradingResult.

Module Summary.
Record t := mk {
  total_positions : nat;
  total_value : Q;
  total_unrealized_pnl : Q;
  total_funding_paid : Q;
  positions : gmap string Position.t
}.
End Summary.

(** ** arbitrage_engine.py on binary64 floats: the pure helpers *)

Module Binary64.
Import PrimFloat.
Local Open Scope float_scope.

(** [leverage] is the [int] argument as the division sees it, converted
    to [float] (exactly, for the leverages the engine accepts). *)
Definition calculate_capital_allocation (total_amount leverage : float)
    : float * float :=
  let spot_amount := total_amount / 2 in
  let futures_amount := spot_amount / leverage in
  (spot_amount, futures_amount).
End Binary64.

(** ** arbitrage_engine.py: the engine *)

Module ArbitrageEngine.
Local Open Scope Q_scope.

(** The attributes of the engine object that the operations below touch
    ([self.client] is passed separately, [self.opportunities] is only
    written by the scanner). *)
Record t := mk {
  positions : gmap string Position.t;
  closed_positions : list ClosedPosition.t;
  rules_manager : TradingRulesManager.t
}.

Definition init : t :=
  {| positions := ∅; closed_positions := [];
     rules_manager := TradingRulesManager.init |}.

Definition set_positions (ps : gmap string Position.t) (e : t) : t :=
  mk ps (closed_positions e) (rules_manager e).
Definition set_rules_manager (m : TradingRulesManager.t) (e : t) : t :=
  mk (positions e) (closed_positions e) m.

Definition get_funding_rate (c : Client.t) (symbol : string) : option Q :=
  let perp_symbol :=
    if Py.endswith symbol "USDT" then Py.replace_USDT_PERP symbol else symbol in
  match Client.get_tickers c Linear perp_symbol with
  | Some ticker_data => Ticker.fundingRate ticker_data
  | None => None
  end.

Definition usdt_symbol (symbol : string) : string :=
  if negb (Py.endswith symbol "USDT") then (symbol ++ "USDT")%string else symbol.

Definition get_spot_price (c : Client.t) (symbol : string) : option Q :=
  Ticker.lastPrice <$> Client.get_tickers c Spot (usdt_symbol symbol).

Definition get_futures_price (c : Client.t) (symbol : string) : option Q :=
  Ticker.lastPrice <$> Client.get_tickers c Linear (usdt_symbol symbol).

Definition _calculate_risk_score (price_diff_percent funding_rate : Q) : Q :=
  let price_risk := Py.min (Qabs price_diff_percent / 2) 1 in
  let funding_risk := Py.max 0 (- funding_rate * 100) in
  let risk_score := price_risk * (7 # 10) + funding_risk * (3 # 10) in
  Py.min risk_score 1.

(** Defined for [leverage <> 0]; the interpreter raises
    [ZeroDivisionError] at zero. *)
Definition calculate_capital_allocation (total_amount : Q) (leverage : Z)
    : Q * Q :=
  let spot_amount := total_amount / 2 in
  let futures_amount := spot_amount / inject_Z leverage in
  (spot_amount, futures_amount).

Definition SPOT_FEE_RATE : Q := 1 # 1000.
Definition FUTURES_FEE_RATE : Q := 55 # 100000.

(** [if not price]: a missing price and a zero price are both refused. *)
Definition usable_price (price : option Q) : option Q :=
  match price with
  | Some p => if Py.truthy p then Some p else None
  | None => None
  end.

(** [if spot_order_id:] *)
Definition usable_id (id : option string) : option string :=
  match id with
  | Some s => if String.eqb s EmptyString then None else Some s
  | None => None
  end.

Definition fail (msg : Message) (e : t) : TradingResult.t * t :=
  (TradingResult.failed msg, e).

Definition one_click_arbitrage (c : Client.t) (now : Q) (e : t)
    (symbol : string) (total_amount : Q) (leverage : Z)
    : TradingResult.t * t :=
  let '(tips, m1) :=
    TradingRulesManager.get_trading_tips c now (rules_manager e) symbol in
  let e1 := set_rules_manager m1 e in
  let max_leverage := Tips.max_leverage (Tips.linear_rules tips) in
  if Py.ltb (inject_Z leverage) 1 || Py.ltb max_leverage (inject_Z leverage)
  then fail (LeverageOutOfRange max_leverage leverage) e1 else
  let min_investment := Tips.min_investment tips in
  if Py.ltb total_amount min_investment
  then fail (BelowMinInvestment total_amount min_investment) e1 else
  let '(spot_amount, futures_amount) :=
    calculate_capital_allocation total_amount leverage in
  match usable_price (get_spot_price c symbol),
        usable_price (get_futures_price c symbol) with
  | Some spot_price, Some futures_price =>
    let spot_qty := spot_amount / spot_price in
    let futures_qty := futures_amount / futures_price in
    let spot_step := Tips.qty_step (Tips.spot_rules tips) in
    let futures_step := Tips.qty_step (Tips.linear_rules tips) in
    (* a zero step makes the division raise *)
    if Qeq_bool spot_step 0 || Qeq_bool futures_step 0
    then fail ArbitrageRaised e1 else
    let spot_qty := inject_Z (Py.round (spot_qty / spot_step)) * spot_step in
    let futures_qty :=
      inject_Z (Py.round (futures_qty / futures_step)) * futures_step in
    let spot_precision := Tips.qty_precision (Tips.spot_rules tips) in
    let futures_precision := Tips.qty_precision (Tips.linear_rules tips) in
    let spot_qty := Py.round_ndigits spot_qty spot_precision in
    let futures_qty := Py.round_ndigits futures_qty futures_precision in
    if Py.leb spot_qty 0 || Py.leb futures_qty 0
    then fail (InvalidQuantity spot_qty futures_qty) e1 else
    let '(spot_error, m2) :=
      TradingRulesManager.validate_order_params
        c now (rules_manager e1) symbol spot_qty spot_price Spot in
    let e2 := set_rules_manager m2 e1 in
    match spot_error with
    | Some err => fail (SpotParamsInvalid err) e2
    | None =>
    let '(futures_error, m3) :=
      TradingRulesManager.validate_order_params
        c now (rules_manager e2) symbol futures_qty futures_price Linear in
    let e3 := set_rules_manager m3 e2 in
    match futures_error with
    | Some err => fail (FuturesParamsInvalid err) e3
    | None =>
    match Client.place_order c symbol Buy spot_amount Spot with
    | Raised => fail ArbitrageRaised e3
    | RetErr error_msg => fail (SpotBuyFailed error_msg) e3
    | RetOk spot_order_id =>
    match Client.set_leverage c symbol leverage with
    | Raised => fail ArbitrageRaised e3
    | RetErr _ | RetOk _ =>
    match Client.place_order c symbol Sell futures_qty Linear with
    | Raised => fail ArbitrageRaised e3
    | RetErr error_msg =>
        match usable_id spot_order_id with
        | Some id =>
            match Client.cancel_order c symbol id Spot with
            | Raised => fail ArbitrageRaised e3
            | _ => fail (FuturesSellFailed error_msg) e3
            end
        | None => fail (FuturesSellFailed error_msg) e3
        end
    | RetOk futures_order_id =>
        let position :=
          {| Position.symbol := symbol;
             Position.spot_qty := spot_qty;
             Position.futures_qty := futures_qty;
             Position.spot_avg_price := spot_price;
             Position.futures_avg_price := futures_price;
             Position.unrealized_pnl := 0;
             Position.funding_paid := 0;
             Position.entry_time := now;
             Position.leverage := leverage;
             Position.total_investment := total_amount;
             Position.spot_investment := spot_amount;
             Position.futures_investment := futures_amount |} in
        ({| TradingResult.success := true;
            TradingResult.message := ArbitrageDone spot_qty futures_qty;
            TradingResult.spot_order_id := spot_order_id;
            TradingResult.futures_order_id := futures_order_id;
            TradingResult.spot_qty := spot_qty;
            TradingResult.futures_qty := futures_qty;
            TradingResult.spot_price := spot_price;
            TradingResult.futures_price := futures_price;
            TradingResult.total_cost := total_amount |},
         set_positions (<[symbol := position]> (positions e3)) e3)
    end end end end end
  | _, _ => fail NoPriceInfo e1
  end.

(** *** Ledger reconciliation

    The loops carry two maps: [self.positions], whose [Position] objects
    are updated in place, and the fresh [actual_positions].  An object
    stored under a key of both maps is one shared object, so attribute
    writes are applied to both. *)

Definition signed_size (d : PositionData.t) : Q :=
  match PositionData.side d with
  | Buy => PositionData.size d
  | Sell => - PositionData.size d
  end.

Definition adopt_linear (now : Q)
    (acc : gmap string Position.t * gmap string Position.t)
    (d : PositionData.t) : gmap string Position.t * gmap string Position.t :=
  let '(self_positions, actual_positions) := acc in
  let symbol := PositionData.symbol d in
  if Py.ltb 0 (PositionData.size d) then
    match self_positions !! symbol with
    | Some pos =>
        let pos :=
          Position.set_unrealized_pnl (PositionData.unrealisedPnl d)
            (Position.set_futures_avg_price (PositionData.avgPrice d)
               (Position.set_futures_qty (signed_size d) pos)) in
        (<[symbol := pos]> self_positions, <[symbol := pos]> actual_positions)
    | None =>
        let pos :=
          {| Position.symbol := symbol;
             Position.spot_qty := 0;
             Position.futures_qty := signed_size d;
             Position.spot_avg_price := 0;
             Position.futures_avg_price := PositionData.avgPrice d;
             Position.unrealized_pnl := PositionData.unrealisedPnl d;
             Position.funding_paid := 0;
             Position.entry_time := now;
             Position.leverage := 1;
             Position.total_investment := 0;
             Position.spot_investment := 0;
             Position.futures_investment := 0 |} in
        (self_positions, <[symbol := pos]> actual_positions)
    end
  else acc.

Definition adopt_balance
    (acc : gmap string Position.t * gmap string Position.t)
    (coin : string * Q) : gmap string Position.t * gmap string Position.t :=
  let '(self_positions, actual_positions) := acc in
  let '(coin_name, balance) := coin in
  if negb (String.eqb coin_name "USDT") && Py.ltb 0 balance then
    let symbol := (coin_name ++ "USDT")%string in
    match actual_positions !! symbol with
    | Some _ =>
        (alter (Position.set_spot_qty balance) symbol self_positions,
         alter (Position.set_spot_qty balance) symbol actual_positions)
    | None =>
        match self_positions !! symbol with
        | Some pos =>
            let pos := Position.set_spot_qty balance pos in
            (<[symbol := pos]> self_positions,
             <[symbol := pos]> actual_positions)
        | None => acc
        end
    end
  else acc.

Definition sum_over (f : Position.t -> Q) (ps : gmap string Position.t) : Q :=
  map_fold (fun _ pos acc => acc + f pos) 0 ps.

Definition get_positions_summary (c : Client.t) (now : Q) (e : t)
    : Summary.t * t :=
  let acc := (positions e, (∅ : gmap string Position.t)) in
  let acc :=
    match Client.get_positions c with
    | Some l => foldl (adopt_linear now) acc l
    | None => acc
    end in
  let acc :=
    match Client.get_account_balance c with
    | Some coins => foldl adopt_balance acc coins
    | None => acc
    end in
  let actual_positions := snd acc in
  ({| Summary.total_positions := size actual_positions;
      Summary.total_value :=
        sum_over (fun pos =>
          Position.spot_qty pos * Position.spot_avg_price pos
          + Qabs (Position.futures_qty pos) * Position.futures_avg_price pos)
          actual_positions;
      Summary.total_unrealized_pnl :=
        sum_over Position.unrealized_pnl actual_positions;
      Summary.total_funding_paid :=
        sum_over Position.funding_paid actual_positions;
      Summary.positions := actual_positions |},
   set_positions actual_positions e).

(** *** Funding income and exit *)

Definition calculate_funding_income (c : Client.t) (now : Q)
    (position : Position.t) (close_quantity : Q) : Q :=
  match get_funding_rate c (Position.symbol position) with
  | Some funding_rate =>
      if Py.truthy funding_rate then
        let holding_hours := (now - Position.entry_time position) / 3600 in
        let funding_periods := Py.int (holding_hours / 8) in
        if (funding_periods <=? 0)%Z then 0
        else
          let futures_value :=
            Qabs (Position.futures_qty position)
            * Position.futures_avg_price position in
          futures_value * funding_rate * inject_Z funding_periods
      else 0
  | None => 0
  end.

Definition close_position (c : Client.t) (now : Q) (e : t) (symbol : string)
    : TradingResult.t * t :=
  let e1 := snd (get_positions_summary c now e) in
  match positions e1 !! symbol with
  | None => fail PositionNotFound e1
  | Some position =>
  match usable_price (get_spot_price c symbol),
        usable_price (get_futures_price c symbol) with
  | Some spot_price, Some futures_price =>
    let '(tips, m2) :=
      TradingRulesManager.get_trading_tips c now (rules_manager e1) symbol in
    let e2 := set_rules_manager m2 e1 in
    let spot_precision := Tips.qty_precision (Tips.spot_rules tips) in
    let futures_qty := Qabs (Position.futures_qty position) in
    let close_spot_qty := Py.min (Position.spot_qty position) futures_qty in
    match Client.place_order c symbol Sell
            (Py.round_ndigits close_spot_qty spot_precision) Spot with
    | Raised => fail CloseRaised e2
    | RetErr msg => fail (SpotSellFailed msg) e2
    | RetOk _ =>
    let futures_precision := Tips.qty_precision (Tips.linear_rules tips) in
    let close_futures_qty := Qabs (Position.futures_qty position) in
    match Client.place_order c symbol Buy
            (Py.round_ndigits close_futures_qty futures_precision) Linear with
    | Raised => fail CloseRaised e2
    | RetErr msg => fail (FuturesBuyFailed msg) e2
    | RetOk _ =>
    let spot_gross_pnl :=
      (spot_price - Position.spot_avg_price position) * close_spot_qty in
    let spot_buy_amount := Position.spot_avg_price position * close_spot_qty in
    let spot_sell_amount := spot_price * close_spot_qty in
    let spot_fees := (spot_buy_amount + spot_sell_amount) * SPOT_FEE_RATE in
    let spot_pnl := spot_gross_pnl - spot_fees in
    let futures_gross_pnl :=
      (Position.futures_avg_price position - futures_price)
      * Qabs (Position.futures_qty position) in
    let futures_short_amount :=
      Position.futures_avg_price position
      * Qabs (Position.futures_qty position) in
    let futures_buy_amount :=
      futures_price * Qabs (Position.futures_qty position) in
    let futures_fees :=
      (futures_short_amount + futures_buy_amount) * FUTURES_FEE_RATE in
    let futures_pnl := futures_gross_pnl - futures_fees in
    let funding_income :=
      calculate_funding_income c now position close_spot_qty in
    let total_pnl := spot_pnl + futures_pnl + funding_income in
    (* the ledger entry is updated in place before the snapshot is taken *)
    let position :=
      Position.set_spot_qty (Position.spot_qty position - close_spot_qty)
        position in
    let position := Position.set_futures_qty 0 position in
    let closed_position :=
      {| ClosedPosition.symbol := symbol;
         ClosedPosition.spot_qty := Position.spot_qty position + close_spot_qty;
         ClosedPosition.futures_qty := Position.futures_qty position;
         ClosedPosition.spot_avg_price := Position.spot_avg_price position;
         ClosedPosition.futures_avg_price :=
           Position.futures_avg_price position;
         ClosedPosition.close_spot_qty := close_spot_qty;
         ClosedPosition.close_futures_qty := close_futures_qty;
         ClosedPosition.close_spot_price := spot_price;
         ClosedPosition.close_futures_price := futures_price;
         ClosedPosition.total_pnl := total_pnl;
         ClosedPosition.entry_time := Position.entry_time position;
         ClosedPosition.close_time := now;
         ClosedPosition.leverage := Position.leverage position;
         ClosedPosition.total_investment :=
           Position.total_investment position;
         ClosedPosition.spot_investment := Position.spot_investment position;
         ClosedPosition.futures_investment :=
           Position.futures_investment position;
         ClosedPosition.funding_paid := Position.funding_paid position |} in
    let history := closed_positions e2 ++ [closed_position] in
    let '(live, position_closed) :=
      if Qeq_bool (Position.futures_qty position) 0
         && Py.ltb (Position.spot_qty position) (1 # 1000)
      then (delete symbol (positions e2), true)
      else if Qeq_bool (Position.futures_qty position) 0
      then (delete symbol (positions e2), true)
      else (<[symbol := position]> (positions e2), false) in
    ({| TradingResult.success := true;
        TradingResult.message :=
          CloseDone total_pnl position_closed (Position.spot_qty position);
        TradingResult.spot_order_id := None;
        TradingResult.futures_order_id := None;
        TradingResult.spot_qty := close_spot_qty;
        TradingResult.futures_qty := close_futures_qty;
        TradingResult.spot_price := spot_price;
        TradingResult.futures_price := futures_price;
        TradingResult.total_cost := 0 |},
     mk live history (rules_manager e2))
    end end
  | _, _ => fail NoPriceInfo e1
  end end.
End ArbitrageEngine.

(** ** Statements of the specification, and the scenarios used below *)

Module Spec.
Import ArbitrageEngine.
Local Open Scope Q_scope.

(** Both legs of an entry of total [T] clear their minimum order amounts:
    the legs are the two amounts that [calculate_capital_allocation] hands
    to the orders, the bounds are the [min_order_amt] of each market. *)
Definition legs_clear (rules : Rules.t) (leverage : Z) (T : Q) : Prop :=
  MarketRules.min_order_amt (Rules.spot rules)
    <= fst (calculate_capital_allocation T leverage)
  /\ MarketRules.min_order_amt (Rules.linear rules)
    <= snd (calculate_capital_allocation T leverage).

Definition smallest (P : Q -> Prop) (m : Q) : Prop :=
  P m /\ forall T, P T -> m <= T.

(** An exchange that accepts every order, quotes [sp] and [fp], reports
    the futures positions [held] and the wallet [coins], and answers no
    instrument query (so the default rule set is used). *)
Definition exchange (demo : bool) (sp fp : Q) (funding : option Q)
    (held : list PositionData.t) (coins : list (string * Q)) : Client.t :=
  {| Client.demo := demo;
     Client.get_instruments_info := fun _ _ => None;
     Client.get_tickers := fun category _ =>
       match category with
       | Spot => Some (Ticker.mk sp None)
       | Linear => Some (Ticker.mk fp funding)
       end;
     Client.place_order := fun _ _ _ category =>
       RetOk (Some match category with
                   | Spot => "spot-1"
                   | Linear => "linear-1"
                   end%string);
     Client.set_leverage := fun _ _ => RetOk None;
     Client.cancel_order := fun _ _ _ => RetOk None;
     Client.get_positions := Some held;
     Client.get_account_balance := Some coins |}.

(** An exchange whose instrument endpoint answers with [r] for every
    symbol and market. *)
Definition listing (r : MarketRules.t) : Client.t :=
  {| Client.demo := false;
     Client.get_instruments_info := fun _ _ => Some r;
     Client.get_tickers := fun _ _ => None;
     Client.place_order := fun _ _ _ _ => RetErr None;
     Client.set_leverage := fun _ _ => RetErr None;
     Client.cancel_order := fun _ _ _ => RetErr None;
     Client.get_positions := None;
     Client.get_account_balance := None |}.

Definition rules_v1 : MarketRules.t :=
  MarketRules.mk (1 # 1000) 1000 (1 # 1000) 5 100000 2 3 5 "Trading".
Definition rules_v2 : MarketRules.t :=
  MarketRules.mk (1 # 10) 1000 (1 # 10) 50 100000 2 1 3 "Trading".

(** A hedged SOL position as the engine records it at entry. *)
Definition sol_position (spot_qty futures_qty : Q) : Position.t :=
  {| Position.symbol := "SOLUSDT";
     Position.spot_qty := spot_qty;
     Position.futures_qty := futures_qty;
     Position.spot_avg_price := 100;
     Position.futures_avg_price := 100;
     Position.unrealized_pnl := 0;
     Position.funding_paid := 0;
     Position.entry_time := 1000000;
     Position.leverage := 1;
     Position.total_investment := 1000;
     Position.spot_investment := 500;
     Position.futures_investment := 500 |}.

Definition holding (p : Position.t) : ArbitrageEngine.t :=
  {| positions := {[ Position.symbol p := p ]};
     closed_positions := [];
     rules_manager := TradingRulesManager.init |}.

(** The exchange's view of a short of [size] SOL and a wallet of
    [balance] SOL. *)
Definition sol_short (size : Q) : PositionData.t :=
  PositionData.mk "SOLUSDT" size Sell 100 0.

Definition sol_exchange (size balance : Q) : Client.t :=
  exchange false 100 100 (Some (3 # 10000)) [sol_short size] [("SOL"%string, balance)].
End Spec.

(** ** arbitrage_engine.py: scanner, first-generation entry, history *)

Module Config.
Definition MIN_FUNDING_RATE : Q := 1 # 10000.
End Config.

Module ArbitrageOpportunity.
Record t := mk {
  symbol : string;
  spot_price : Q;
  futures_price : Q;
  funding_rate : Q;
  price_difference : Q;
  price_difference_percent : Q;
  potential_profit : Q;
  risk_score : Q;
  timestamp : Q
}.
End ArbitrageOpportunity.

Module Scanner.
Import ArbitrageEngine.
Local Open Scope Q_scope.

(** [not all([spot_price, futures_price, funding_rate is not None])]: a
    price must be present and non-zero, a funding rate only present. *)
Definition calculate_arbitrage_opportunity (c : Client.t) (now : Q)
    (symbol : string) : option ArbitrageOpportunity.t :=
  let spot_price := get_spot_price c symbol in
  let futures_price := get_futures_price c symbol in
  let funding_rate := get_funding_rate c symbol in
  match usable_price spot_price, usable_price futures_price, funding_rate with
  | Some spot_price, Some futures_price, Some funding_rate =>
      let price_difference := futures_price - spot_price in
      let price_difference_percent := price_difference / spot_price * 100 in
      let daily_funding := funding_rate * 3 in
      let potential_profit := daily_funding * 100 in
      let risk_score :=
        _calculate_risk_score price_difference_percent funding_rate in
      Some {| ArbitrageOpportunity.symbol := symbol;
              ArbitrageOpportunity.spot_price := spot_price;
              ArbitrageOpportunity.futures_price := futures_price;
              ArbitrageOpportunity.funding_rate := funding_rate;
              ArbitrageOpportunity.price_difference := price_difference;
              ArbitrageOpportunity.price_difference_percent :=
                price_difference_percent;
              ArbitrageOpportunity.potential_profit := potential_profit;
              ArbitrageOpportunity.risk_score := risk_score;
              ArbitrageOpportunity.timestamp := now |}
  | _, _, _ => None
  end.

(** [opportunities.sort(key=lambda x: x.potential_profit, reverse=True)].
    The sort is stable, also with [reverse=True], so its result is fixed
    by the keys and the input order: descending keys, equal keys in input
    order.  The insertion below puts [o], which precedes the elements of
    [l] in the input, in front of the first element whose key is not
    greater. *)
Fixpoint insert_by_profit (o : ArbitrageOpportunity.t)
    (l : list ArbitrageOpportunity.t) : list ArbitrageOpportunity.t :=
  match l with
  | [] => [o]
  | y :: l' =>
      if Py.ltb (ArbitrageOpportunity.potential_profit o)
                (ArbitrageOpportunity.potential_profit y)
      then y :: insert_by_profit o l'
      else o :: l
  end.

Definition sort_by_profit (l : list ArbitrageOpportunity.t)
    : list ArbitrageOpportunity.t :=
  foldr insert_by_profit [] l.

(** The loop of [scan_opportunities]: one step per symbol. *)
Definition collect (c : Client.t) (now : Q)
    (opportunities : list ArbitrageOpportunity.t) (symbol : string)
    : list ArbitrageOpportunity.t :=
  match calculate_arbitrage_opportunity c now symbol with
  | Some opportunity =>
      if Py.ltb Config.MIN_FUNDING_RATE
                (ArbitrageOpportunity.funding_rate opportunity)
      then opportunities ++ [opportunity]
      else opportunities
  | None => opportunities
  end.

(** Returns the list that is also stored in [self.opportunities]. *)
Definition scan_opportunities (c : Client.t) (now : Q) (symbols : list string)
    : list ArbitrageOpportunity.t :=
  sort_by_profit (foldl (collect c now) [] symbols).

(** [execute_arbitrage]: the entry without leverage, rules or rounding of
    the recorded quantities.  Every [return False] leaves the engine as it
    was; so does the exception raised when the cancel path finds no order
    id in the spot answer. *)
Definition execute_arbitrage (c : Client.t) (now : Q) (e : ArbitrageEngine.t)
    (symbol : string) (amount : Q) : bool * ArbitrageEngine.t :=
  match usable_price (get_spot_price c symbol),
        usable_price (get_futures_price c symbol) with
  | Some spot_price, Some futures_price =>
      let spot_qty := amount / spot_price in
      let futures_qty := amount / futures_price in
      match Client.place_order c symbol Buy (Py.round_ndigits spot_qty 6) Spot with
      | Raised | RetErr _ => (false, e)
      | RetOk spot_order_id =>
          match Client.place_order c symbol Sell
                  (Py.round_ndigits futures_qty 6) Linear with
          | Raised => (false, e)
          | RetErr _ =>
              match spot_order_id with
              | Some id =>
                  match Client.cancel_order c symbol id Spot with
                  | _ => (false, e)
                  end
              | None => (false, e)
              end
          | RetOk _ =>
              let position :=
                {| Position.symbol := symbol;
                   Position.spot_qty := spot_qty;
                   Position.futures_qty := futures_qty;
                   Position.spot_avg_price := spot_price;
                   Position.futures_avg_price := futures_price;
                   Position.unrealized_pnl := 0;
                   Position.funding_paid := 0;
                   Position.entry_time := now;
                   Position.leverage := 1;
                   Position.total_investment := 0;
                   Position.spot_investment := 0;
                   Position.futures_investment := 0 |} in
              (true, set_positions (<[symbol := position]> (positions e)) e)
          end
      end
  | _, _ => (false, e)
  end.
End Scanner.

Module ClosedSummary.
Record t := mk {
  total_closed : nat;
  total_pnl : Q;
  total_investment : Q;
  positions : list ClosedPosition.t
}.
End ClosedSummary.

Module History.
Import ArbitrageEngine.
Local Open Scope Q_scope.

(** [sum(...)] of floats: left to right, from 0. *)
Definition py_sum (l : list Q) : Q := foldl Qplus 0 l.

Definition get_closed_positions (e : ArbitrageEngine.t)
    : list ClosedPosition.t :=
  closed_positions e.

Definition get_closed_positions_summary (e : ArbitrageEngine.t)
    : ClosedSummary.t :=
  match closed_positions e with
  | [] =>
      {| ClosedSummary.total_closed := 0;
         ClosedSummary.total_pnl := 0;
         ClosedSummary.total_investment := 0;
         ClosedSummary.positions := [] |}
  | _ =>
      {| ClosedSummary.total_closed := List.length (closed_positions e);
         ClosedSummary.total_pnl :=
           py_sum (ClosedPosition.total_pnl <$> closed_positions e);
         ClosedSummary.total_investment :=
           py_sum (ClosedPosition.total_investment <$> closed_positions e);
         ClosedSummary.positions := closed_positions e |}
  end.
End History.

(** ** Vocabulary for statements about the reconciliation *)

Module Ledger.
Import ArbitrageEngine.
Local Open Scope Q_scope.

(** The futures positions and the wallet as the reconciliation sees them:
    a failed query contributes nothing. *)
Definition held (c : Client.t) : list PositionData.t :=
  default [] (Client.get_positions c).
Definition wallet (c : Client.t) : list (string * Q) :=
  default [] (Client.get_account_balance c).

(** The exchange lists an open futures position [d] for [symbol]. *)
Definition reports (c : Client.t) (symbol : string) (d : PositionData.t)
    : Prop :=
  d ∈ held c /\ PositionData.symbol d = symbol /\ 0 < PositionData.size d.

(** The wallet lists a positive [balance] of the base coin of [symbol]. *)
Definition funds (c : Client.t) (symbol : string) (balance : Q) : Prop :=
  exists coin, (coin, balance) ∈ wallet c /\ coin <> "USDT"%string
               /\ 0 < balance /\ symbol = (coin ++ "USDT")%string.

(** The futures leg of [p] is the one listed in [d]. *)
Definition carries (d : PositionData.t) (p : Position.t) : Prop :=
  Position.futures_qty p = signed_size d
  /\ Position.futures_avg_price p = PositionData.avgPrice d
  /\ Position.unrealized_pnl p = PositionData.unrealisedPnl d.

(** The attributes that the reconciliation never writes on an existing
    record. *)
Definition entry_attributes (p : Position.t) :=
  (Position.symbol p, Position.spot_avg_price p, Position.funding_paid p,
   Position.entry_time p, Position.leverage p, Position.total_investment p,
   Position.spot_investment p, Position.futures_investment p).

(** The listings that the two loops act on for one symbol, in order. *)
Definition listed (c : Client.t) (symbol : string) : list PositionData.t :=
  List.filter
    (fun d => String.eqb (PositionData.symbol d) symbol
              && Py.ltb 0 (PositionData.size d))
    (held c).

Definition balances (c : Client.t) (symbol : string) : list Q :=
  snd <$> List.filter
            (fun coin : string * Q =>
               negb (String.eqb (fst coin) "USDT") && Py.ltb 0 (snd coin)
               && String.eqb (fst coin ++ "USDT") symbol)
            (wallet c).

(** The three writes of the futures loop on an existing record, and the
    record it creates when there is none. *)
Definition overwrite_futures (d : PositionData.t) (pos : Position.t)
    : Position.t :=
  Position.set_unrealized_pnl (PositionData.unrealisedPnl d)
    (Position.set_futures_avg_price (PositionData.avgPrice d)
       (Position.set_futures_qty (signed_size d) pos)).

Definition adopted (now : Q) (d : PositionData.t) : Position.t :=
  {| Position.symbol := PositionData.symbol d;
     Position.spot_qty := 0;
     Position.futures_qty := signed_size d;
     Position.spot_avg_price := 0;
     Position.futures_avg_price := PositionData.avgPrice d;
     Position.unrealized_pnl := PositionData.unrealisedPnl d;
     Position.funding_paid := 0;
     Position.entry_time := now;
     Position.leverage := 1;
     Position.total_investment := 0;
     Position.spot_investment := 0;
     Position.futures_investment := 0 |}.

(** The reconciliation as a rule for one symbol: what the ledger holds
    afterwards, given the local record, the listing of the futures
    position that counts and the wallet balance that counts. *)
Definition merged (now : Q) (local : option Position.t)
    (reported : option PositionData.t) (balance : option Q)
    : option Position.t :=
  match reported with
  | Some d =>
      let base :=
        match local with
        | Some pos => overwrite_futures d pos
        | None => adopted now d
        end in
      Some match balance with
           | Some b => Position.set_spot_qty b base
           | None => base
           end
  | None =>
      match local, balance with
      | Some pos, Some b => Some (Position.set_spot_qty b pos)
      | _, _ => None
      end
  end.

(** One step of each loop, seen from one symbol: the pair is the entry of
    [self.positions] and the entry of [actual_positions]. *)
Definition linear_at (now : Q) (acc : option Position.t * option Position.t)
    (d : PositionData.t) : option Position.t * option Position.t :=
  match fst acc with
  | Some pos => (Some (overwrite_futures d pos), Some (overwrite_futures d pos))
  | None => (None, Some (adopted now d))
  end.

Definition balance_at (acc : option Position.t * option Position.t)
    (balance : Q) : option Position.t * option Position.t :=
  match snd acc with
  | Some pos =>
      (Position.set_spot_qty balance <$> fst acc,
       Some (Position.set_spot_qty balance pos))
  | None =>
      (Position.set_spot_qty balance <$> fst acc,
       Position.set_spot_qty balance <$> fst acc)
  end.
End Ledger.

(** ** The entry with one clock reading per rule lookup

    [get_trading_rules] reads [time.time()] each time it is called, and
    one entry calls it four times: in [get_trading_tips], in the
    [get_min_investment_amount] called from there, and in the two
    [validate_order_params] calls; [entry_time] is a fifth reading.  The
    definitions below repeat [get_trading_tips] and [one_click_arbitrage]
    with these readings kept apart, so that a call during which the cache
    expires can be stated. *)

Module Readings.
Record t := mk {
  tips_lookup : Q;
  min_investment_lookup : Q;
  spot_check : Q;
  futures_check : Q;
  entry_time : Q
}.

Definition at_once (now : Q) : t := mk now now now now now.
End Readings.

Module Timed.
Import ArbitrageEngine.
Local Open Scope Q_scope.

Definition get_trading_tips (c : Client.t) (now now' : Q)
    (m : TradingRulesManager.t) (symbol : string)
    : Tips.t * TradingRulesManager.t :=
  let '(rules, m1) :=
    TradingRulesManager.get_trading_rules c now m symbol false in
  let '(min_investment, m2) :=
    TradingRulesManager.get_min_investment_amount c now' m1 symbol 1 in
  ({| Tips.symbol := symbol;
      Tips.min_investment := min_investment;
      Tips.spot_rules := TradingRulesManager.leg_of (Rules.spot rules);
      Tips.linear_rules := TradingRulesManager.leg_of (Rules.linear rules) |},
   m2).

Definition one_click_arbitrage (c : Client.t) (clock : Readings.t) (e : t)
    (symbol : string) (total_amount : Q) (leverage : Z)
    : TradingResult.t * t :=
  let '(tips, m1) :=
    get_trading_tips c (Readings.tips_lookup clock)
      (Readings.min_investment_lookup clock) (rules_manager e) symbol in
  let e1 := set_rules_manager m1 e in
  let max_leverage := Tips.max_leverage (Tips.linear_rules tips) in
  if Py.ltb (inject_Z leverage) 1 || Py.ltb max_leverage (inject_Z leverage)
  then fail (LeverageOutOfRange max_leverage leverage) e1 else
  let min_investment := Tips.min_investment tips in
  if Py.ltb total_amount min_investment
  then fail (BelowMinInvestment total_amount min_investment) e1 else
  let '(spot_amount, futures_amount) :=
    calculate_capital_allocation total_amount leverage in
  match usable_price (get_spot_price c symbol),
        usable_price (get_futures_price c symbol) with
  | Some spot_price, Some futures_price =>
    let spot_qty := spot_amount / spot_price in
    let futures_qty := futures_amount / futures_price in
    let spot_step := Tips.qty_step (Tips.spot_rules tips) in
    let futures_step := Tips.qty_step (Tips.linear_rules tips) in
    if Qeq_bool spot_step 0 || Qeq_bool futures_step 0
    then fail ArbitrageRaised e1 else
    let spot_qty := inject_Z (Py.round (spot_qty / spot_step)) * spot_step in
    let futures_qty :=
      inject_Z (Py.round (futures_qty / futures_step)) * futures_step in
    let spot_precision := Tips.qty_precision (Tips.spot_rules tips) in
    let futures_precision := Tips.qty_precision (Tips.linear_rules tips) in
    let spot_qty := Py.round_ndigits spot_qty spot_precision in
    let futures_qty := Py.round_ndigits futures_qty futures_precision in
    if Py.leb spot_qty 0 || Py.leb futures_qty 0
    then fail (InvalidQuantity spot_qty futures_qty) e1 else
    let '(spot_error, m2) :=
      TradingRulesManager.validate_order_params
        c (Readings.spot_check clock) (rules_manager e1) symbol
        spot_qty spot_price Spot in
    let e2 := set_rules_manager m2 e1 in
    match spot_error with
    | Some err => fail (SpotParamsInvalid err) e2
    | None =>
    let '(futures_error, m3) :=
      TradingRulesManager.validate_order_params
        c (Readings.futures_check clock) (rules_manager e2) symbol
        futures_qty futures_price Linear in
    let e3 := set_rules_manager m3 e2 in
    match futures_error with
    | Some err => fail (FuturesParamsInvalid err) e3
    | None =>
    match Client.place_order c symbol Buy spot_amount Spot with
    | Raised => fail ArbitrageRaised e3
    | RetErr error_msg => fail (SpotBuyFailed error_msg) e3
    | RetOk spot_order_id =>
    match Client.set_leverage c symbol leverage with
    | Raised => fail ArbitrageRaised e3
    | RetErr _ | RetOk _ =>
    match Client.place_order c symbol Sell futures_qty Linear with
    | Raised => fail ArbitrageRaised e3
    | RetErr error_msg =>
        match usable_id spot_order_id with
        | Some id =>
            match Client.cancel_order c symbol id Spot with
            | Raised => fail ArbitrageRaised e3
            | _ => fail (FuturesSellFailed error_msg) e3
            end
        | None => fail (FuturesSellFailed error_msg) e3
        end
    | RetOk futures_order_id =>
        let position :=
          {| Position.symbol := symbol;
             Position.spot_qty := spot_qty;
             Position.futures_qty := futures_qty;
             Position.spot_avg_price := spot_price;
             Position.futures_avg_price := futures_price;
             Position.unrealized_pnl := 0;
             Position.funding_paid := 0;
             Position.entry_time := Readings.entry_time clock;
             Position.leverage := leverage;
             Position.total_investment := total_amount;
             Position.spot_investment := spot_amount;
             Position.futures_investment := futures_amount |} in
        ({| TradingResult.success := true;
            TradingResult.message := ArbitrageDone spot_qty futures_qty;
            TradingResult.spot_order_id := spot_order_id;
            TradingResult.futures_order_id := futures_order_id;
            TradingResult.spot_qty := spot_qty;
            TradingResult.futures_qty := futures_qty;
            TradingResult.spot_price := spot_price;
            TradingResult.futures_price := futures_price;
            TradingResult.total_cost := total_amount |},
         set_positions (<[symbol := position]> (positions e3)) e3)
    end end end end end
  | _, _ => fail NoPriceInfo e1
  end.

(** An exchange that lists [r] for every symbol and market, quotes [sp]
    and [fp] and accepts every order. *)
Definition relisted (r : MarketRules.t) (sp fp : Q) : Client.t :=
  {| Client.demo := false;
     Client.get_instruments_info := fun _ _ => Some r;
     Client.get_tickers := fun category _ =>
       match category with
       | Spot => Some (Ticker.mk sp None)
       | Linear => Some (Ticker.mk fp None)
       end;
     Client.place_order := fun _ _ _ _ => RetOk (Some "order-1"%string);
     Client.set_leverage := fun _ _ => RetOk None;
     Client.cancel_order := fun _ _ _ => RetOk None;
     Client.get_positions := Some [];
     Client.get_account_balance := Some [] |}.

(** An engine whose rules manager fetched [r] for SOLUSDT at time 0. *)
Definition fetched_at_0 (r : MarketRules.t) : ArbitrageEngine.t :=
  set_rules_manager
    (snd (TradingRulesManager.get_trading_rules (Spec.listing r) 0
            TradingRulesManager.init "SOLUSDT" true))
    ArbitrageEngine.init.
End Timed.

(** ** Vocabulary for statements about the orders sent *)

Module Orders.
Local Open Scope Q_scope.

(** [c'] answers every request as [c] does, except possibly orders,
    leverage settings and cancellations. *)
Definition same_but_orders (c c' : Client.t) : Prop :=
  Client.demo c' = Client.demo c
  /\ Client.get_instruments_info c' = Client.get_instruments_info c
  /\ Client.get_tickers c' = Client.get_tickers c
  /\ Client.get_positions c' = Client.get_positions c
  /\ Client.get_account_balance c' = Client.get_account_balance c.

(** A decimal with [n] digits after the point. *)
Definition decimal (k : Z) (n : nat) : Q := inject_Z k / Py.pow10 n.

(** The exchange [c], except that it refuses the order
    [(symbol, side, qty, category)]. *)
Definition refusing (symbol : string) (side : Side) (qty : Q)
    (category : Category) (c : Client.t) : Client.t :=
  {| Client.demo := Client.demo c;
     Client.get_instruments_info := Client.get_instruments_info c;
     Client.get_tickers := Client.get_tickers c;
     Client.place_order := fun s sd q cat =>
       if String.eqb s symbol && Qeq_bool q qty
          && match sd, side with Buy, Buy | Sell, Sell => true | _, _ => false end
          && match cat, category with
             | Spot, Spot | Linear, Linear => true
             | _, _ => false
             end
       then RetErr None
       else Client.place_order c s sd q cat;
     Client.set_leverage := Client.set_leverage c;
     Client.cancel_order := Client.cancel_order c;
     Client.get_positions := Client.get_positions c;
     Client.get_account_balance := Client.get_account_balance c |}.
End Orders.

(** ** Facts about the numeric builtins *)

Section PyFacts.
Local Open Scope Q_scope.

Lemma ltb_true (x y : Q) : Py.ltb x y = true <-> x < y.
Proof.
  unfold Py.ltb. rewrite negb_true_iff, <- not_true_iff_false, Qle_bool_iff.
  split; [apply Qnot_le_lt | apply Qlt_not_le].
Qed.

Lemma ltb_false (x y : Q) : Py.ltb x y = false <-> y <= x.
Proof.
  unfold Py.ltb. rewrite negb_false_iff. apply Qle_bool_iff.
Qed.

Lemma min_is_Qmin (a b : Q) : Py.min a b == Qmin a b.
Proof.
  unfold Py.min. destruct (Py.ltb b a) eqn:E.
  - apply ltb_true in E. symmetry. apply Q.min_r. lra.
  - apply ltb_false in E. symmetry. apply Q.min_l. exact E.
Qed.

Lemma max_is_Qmax (a b : Q) : Py.max a b == Qmax a b.
Proof.
  unfold Py.max. destruct (Py.ltb a b) eqn:E.
  - apply ltb_true in E. symmetry. apply Q.max_r. lra.
  - apply ltb_false in E. symmetry. apply Q.max_l. exact E.
Qed.

Lemma min_bounds (a b : Q) : Py.min a b <= a /\ Py.min a b <= b.
Proof.
  unfold Py.min. destruct (Py.ltb b a) eqn:E.
  - apply ltb_true in E. lra.
  - apply ltb_false in E. lra.
Qed.

Lemma min_cases (a b : Q) : Py.min a b = a \/ Py.min a b = b.
Proof. unfold Py.min. destruct (Py.ltb b a); auto. Qed.

Lemma max_bounds (a b : Q) : a <= Py.max a b /\ b <= Py.max a b.
Proof.
  unfold Py.max. destruct (Py.ltb a b) eqn:E.
  - apply ltb_true in E. lra.
  - apply ltb_false in E. lra.
Qed.

Lemma max_cases (a b : Q) : Py.max a b = a \/ Py.max a b = b.
Proof. unfold Py.max. destruct (Py.ltb a b); auto. Qed.

Lemma round_comp (x y : Q) : x == y -> Py.round x = Py.round y.
Proof.
  intros H. unfold Py.round.
  rewrite (Qfloor_comp _ _ H).
  assert (Hc : (x - inject_Z (Qfloor y) ?= 1 # 2)
               = (y - inject_Z (Qfloor y) ?= 1 # 2))
    by (apply Qcompare_comp; [rewrite H |]; reflexivity).
  rewrite Hc. reflexivity.
Qed.

Lemma round_ndigits_comp (x y : Q) (n : nat) :
  x == y -> Py.round_ndigits x n = Py.round_ndigits y n.
Proof.
  intros H. unfold Py.round_ndigits.
  rewrite (round_comp (x * Py.pow10 n) (y * Py.pow10 n)); [reflexivity |].
  rewrite H. reflexivity.
Qed.
End PyFacts.

(** ** Risk score and capital allocation *)

Section Scoring.
Import ArbitrageEngine.
Local Open Scope Q_scope.

(** C7. For all inputs the risk score equals
    min(|price_diff_percent| / 2, 1) * 0.7 + max(0, -funding_rate * 100) * 0.3
    clamped to 1, and it lies in the interval [0, 1]. *)
Theorem risk_score_formula_and_range (price_diff_percent funding_rate : Q) :
  _calculate_risk_score price_diff_percent funding_rate
    == Qmin (Qmin (Qabs price_diff_percent / 2) 1 * (7 # 10)
             + Qmax 0 (- funding_rate * 100) * (3 # 10)) 1
  /\ 0 <= _calculate_risk_score price_diff_percent funding_rate <= 1.
Proof.
  unfold _calculate_risk_score. split.
  - rewrite min_is_Qmin.
    rewrite (min_is_Qmin (Qabs price_diff_percent / 2) 1).
    rewrite (max_is_Qmax 0 (- funding_rate * 100)). reflexivity.
  - pose proof (Qabs_nonneg price_diff_percent) as Habs.
    set (p := Py.min (Qabs price_diff_percent / 2) 1).
    set (f := Py.max 0 (- funding_rate * 100)).
    assert (Hp : 0 <= p).
    { subst p.
      assert (Hh : Qabs price_diff_percent / 2
                   == Qabs price_diff_percent * (1 # 2)) by field.
      destruct (min_cases (Qabs price_diff_percent / 2) 1) as [-> | ->];
        [rewrite Hh |]; lra. }
    assert (Hf : 0 <= f) by (subst f; apply max_bounds).
    split.
    + destruct (min_cases (p * (7 # 10) + f * (3 # 10)) 1) as [-> | ->]; lra.
    + apply min_bounds.
Qed.

(** C8, as the code has it: spot_amount is T/2, and in exact arithmetic
    spot_amount + futures_margin * L gives back T for every integer
    leverage L >= 1. *)
Theorem allocation_sum_exact (T : Q) (L : Z) :
  (1 <= L)%Z ->
  fst (calculate_capital_allocation T L) = T / 2
  /\ fst (calculate_capital_allocation T L)
     + snd (calculate_capital_allocation T L) * inject_Z L == T.
Proof.
  intros HL. unfold calculate_capital_allocation. simpl.
  assert (HLq : 1 <= inject_Z L) by (rewrite Zle_Qle in HL; exact HL).
  split; [reflexivity |]. field. lra.
Qed.

Lemma allocation_sum_exact_witness :
  fst (calculate_capital_allocation 1000 2) = 1000 / 2
  /\ fst (calculate_capital_allocation 1000 2)
     + snd (calculate_capital_allocation 1000 2) * inject_Z 2 == 1000.
Proof. apply (allocation_sum_exact 1000 2). lia. Defined.

(** Scenario A: a spread of 0.2% at a funding rate of 0.0003 scores 0.07. *)
Example risk_score_scenario_A :
  _calculate_risk_score (2 # 10) (3 # 10000) == 7 # 100.
Proof. vm_compute. reflexivity. Qed.

(** Scenario C: 1000 at leverage 2 is split into 500 and 250. *)
Example allocation_scenario_C :
  fst (calculate_capital_allocation 1000 2) == 500
  /\ snd (calculate_capital_allocation 1000 2) == 250.
Proof. vm_compute. split; reflexivity. Qed.
End Scoring.

Section AllocationOnBinary64.
Import PrimFloat.
Local Open Scope float_scope.

(** On binary64 the first half of C8 holds by construction. *)
Lemma binary64_spot_amount_is_half (T L : float) :
  fst (Binary64.calculate_capital_allocation T L) = T / 2.
Proof. reflexivity. Qed.

(** C8 fails on binary64: with T = 100.2 (the double 0x1.90ccccccccccdp+6)
    and L = 3, spot_amount + futures_margin * L is 100.19999999999999
    (the double 0x1.90cccccccccccp+6). *)
Lemma allocation_sum_inexact_binary64 :
  let T := 0x1.90ccccccccccdp+6 in
  let alloc := Binary64.calculate_capital_allocation T 3 in
  fst alloc + snd alloc * 3 = 0x1.90cccccccccccp+6
  /\ PrimFloat.eqb (fst alloc + snd alloc * 3) T = false.
Proof. vm_compute. split; reflexivity. Qed.

(** With the same T and L = 2 the division is exact and the sum is T. *)
Example allocation_sum_binary64_leverage_2 :
  let T := 0x1.90ccccccccccdp+6 in
  let alloc := Binary64.calculate_capital_allocation T 2 in
  PrimFloat.eqb (fst alloc + snd alloc * 2) T = true.
Proof. vm_compute. reflexivity. Qed.

(** Scenario C on binary64: 1000 at leverage 2 is split into 500 and 250. *)
Example allocation_scenario_C_binary64 :
  Binary64.calculate_capital_allocation 1000 2 = (500, 250).
Proof. vm_compute. reflexivity. Qed.
End AllocationOnBinary64.

(** ** Hedge sizing at entry *)

Section HedgeSizing.
Import ArbitrageEngine.
Local Open Scope Q_scope.

(** The raw quantities of the two legs, as [one_click_arbitrage] computes
    them from the allocation, agree exactly when the spot price is the
    leverage times the futures price. *)
Lemma raw_quantities_equal_iff (T sp fp : Q) (L : Z) :
  ~ T == 0 -> (1 <= L)%Z -> 0 < sp -> 0 < fp ->
  (fst (calculate_capital_allocation T L) / sp
     == snd (calculate_capital_allocation T L) / fp
   <-> sp == inject_Z L * fp).
Proof.
  intros HT HL Hsp Hfp. unfold calculate_capital_allocation. simpl.
  assert (HLq : 1 <= inject_Z L) by (rewrite Zle_Qle in HL; exact HL).
  set (l := inject_Z L) in *.
  assert (Ha : T / 2 / sp * sp == T * (1 # 2)) by (field; lra).
  assert (Hb : T / 2 / l / fp * (l * fp) == T * (1 # 2)) by (field; lra).
  split; intros H.
  - rewrite <- H in Hb.
    assert (Hz : T / 2 / sp * (sp - l * fp) == 0) by lra.
    apply Qmult_integral in Hz. destruct Hz as [Hz | Hz]; [| lra].
    rewrite Hz in Ha. lra.
  - rewrite H. field. lra.
Qed.

(** C1, evaluated.  An entry of 1000 USDT at leverage 2, both markets
    quoting 100 and the default rule set in force (step 0.001, three
    decimals): the call succeeds, the raw quantities are 5 and 2.5, and
    the stored position holds 5 on the spot leg against 2.5 on the
    futures leg. *)
Theorem entry_at_leverage_2_is_half_hedged :
  let c := Spec.exchange false 100 100 None [] [] in
  let alloc := calculate_capital_allocation 1000 2 in
  let out := one_click_arbitrage c 1000000 init "SOLUSDT" 1000 2 in
  TradingResult.success (fst out) = true
  /\ fst alloc / 100 == 5 /\ snd alloc / 100 == 5 # 2
  /\ exists p, positions (snd out) !! "SOLUSDT"%string = Some p
       /\ Position.spot_qty p == 5
       /\ Position.futures_qty p == 5 # 2
       /\ Position.spot_qty p - Position.futures_qty p == 2500 * (1 # 1000).
Proof.
  vm_compute. split; [reflexivity |]. split; [reflexivity |].
  split; [reflexivity |]. eexists. split; [reflexivity |].
  repeat split; reflexivity.
Qed.
End HedgeSizing.

(** ** The rules cache *)

Section RulesCache.
Import TradingRulesManager.
Local Open Scope Q_scope.

(** What the shared time stamp does guarantee: an entry is served from
    the cache only within the hour that follows the latest fetch of any
    symbol, and serving leaves the manager as it was. *)
Lemma cache_hit_within_shared_window (c : Client.t) (now : Q) (m : t)
    (symbol : string) (cached : Rules.t) :
  rules_cache m !! symbol = Some cached ->
  now - cache_time m < cache_duration ->
  get_trading_rules c now m symbol false = (cached, m).
Proof.
  intros Hin Hfresh. unfold get_trading_rules, _is_cache_valid.
  apply ltb_true in Hfresh. rewrite Hfresh. simpl. rewrite Hin. reflexivity.
Qed.

(** A fetch of any symbol moves the shared time stamp. *)
Lemma cache_miss_restamps (c : Client.t) (now : Q) (m : t) (symbol : string) :
  rules_cache m !! symbol = None ->
  cache_time (snd (get_trading_rules c now m symbol false)) = now.
Proof.
  intros Hout. unfold get_trading_rules. rewrite Hout.
  destruct (negb false && _is_cache_valid m now); reflexivity.
Qed.

(** C4, evaluated.  SOLUSDT is fetched at t = 1 000 000, ADAUSDT at
    t = 1 003 000, and SOLUSDT is asked for again at t = 1 006 000, when
    the exchange lists different rules.  The third call is served from
    the cache: it returns the rule set fetched 6000 seconds earlier. *)
Theorem stale_entry_served_after_other_symbol_fetch :
  let first := get_trading_rules (Spec.listing Spec.rules_v1) 1000000 init
                 "SOLUSDT" false in
  let second := get_trading_rules (Spec.listing Spec.rules_v1) 1003000
                  (snd first) "ADAUSDT" false in
  let third := get_trading_rules (Spec.listing Spec.rules_v2) 1006000
                 (snd second) "SOLUSDT" false in
  fst third = fst first
  /\ snd third = snd second
  /\ Rules.spot (fst third) = Spec.rules_v1
  /\ Rules.spot (fst third) <> Spec.rules_v2
  /\ Rules.last_updated (fst third) == 1000000
  /\ 3600 < 1006000 - Rules.last_updated (fst third).
Proof.
  vm_compute. repeat split; try reflexivity; discriminate.
Qed.
End RulesCache.

(** ** Minimum investment *)

Section MinInvestment.
Import TradingRulesManager ArbitrageEngine.
Local Open Scope Q_scope.

(** The live branch takes the larger of the two per-leg minima and the
    demo branch divides its per-leg minimum by the spot share of the
    total. *)
Lemma min_investment_by_branch (c : Client.t) (now : Q)
    (m : TradingRulesManager.t) (symbol : string) (L : Z) :
  let rules := fst (get_trading_rules c now m symbol false) in
  fst (get_min_investment_amount c now m symbol L)
  = if Client.demo c then
      Py.round_ndigits
        (_get_demo_min_qty symbol * estimated_price symbol
         / (inject_Z L / inject_Z (L + 1)) * (12 # 10)) 2
    else
      Py.round_ndigits
        (Py.max (MarketRules.min_order_amt (Rules.spot rules))
                (MarketRules.min_order_amt (Rules.linear rules) / inject_Z L)
         * (12 # 10)) 2.
Proof.
  intros rules. subst rules. unfold get_min_investment_amount.
  destruct (get_trading_rules c now m symbol false) as [rules m1].
  destruct (Client.demo c); reflexivity.
Qed.

(** C3, at the failing input.  Live exchange, default rule set (both
    minimum order amounts are 5), leverage 1.  The smallest total whose
    two legs clear their minimum order amounts is 10, so the minimum
    investment should be 12; get_min_investment_amount returns 6, which
    does not let the legs clear, and one_click_arbitrage refuses an entry
    of exactly that amount because its spot leg, 3 USDT, is below the spot
    minimum.  The demo branch of the same function does turn its per-leg
    minimum (5 coins at 100) into a total: 500 / (1/2) * 1.2 = 1200. *)
Theorem min_investment_below_clearing_total :
  let c := Spec.exchange false 100 100 None [] [] in
  let got := get_min_investment_amount c 1000000 TradingRulesManager.init
               "SOLUSDT" 1 in
  let rules := fst (get_trading_rules c 1000000 TradingRulesManager.init
                      "SOLUSDT" false) in
  fst got == 6
  /\ ~ Spec.legs_clear rules 1 (fst got)
  /\ TradingResult.message
       (fst (one_click_arbitrage c 1000000 ArbitrageEngine.init
               "SOLUSDT" (fst got) 1))
     = SpotParamsInvalid AmountBelowMin
  /\ Spec.smallest (Spec.legs_clear rules 1) 10
  /\ ~ (exists least, Spec.smallest (Spec.legs_clear rules 1) least
          /\ fst got == Py.round_ndigits (least * (12 # 10)) 2)
  /\ fst (get_min_investment_amount (Spec.exchange true 100 100 None [] [])
            1000000 TradingRulesManager.init "SOLUSDT" 1) == 1200.
Proof.
  cbv zeta.
  assert (Hleast : Spec.smallest
            (Spec.legs_clear
               (fst (get_trading_rules (Spec.exchange false 100 100 None [] [])
                       1000000 TradingRulesManager.init "SOLUSDT" false)) 1)
            10).
  { split; [split; vm_compute; discriminate |].
    intros T [Hs _].
    unfold calculate_capital_allocation in Hs. simpl in Hs.
    assert (Hh : T / 2 == T * (1 # 2)) by field.
    rewrite Hh in Hs. lra. }
  split; [vm_compute; reflexivity |].
  split; [intros [H _]; vm_compute in H; apply H; reflexivity |].
  split; [vm_compute; reflexivity |].
  split; [exact Hleast |].
  split; [| vm_compute; reflexivity].
  intros (least & [Hclear Hmin] & Heq).
  assert (H10 : least == 10).
  { apply Qle_antisym.
    - apply Hmin. apply Hleast.
    - apply Hleast. exact Hclear. }
  rewrite (round_ndigits_comp _ (10 * (12 # 10)) 2) in Heq
    by (rewrite H10; reflexivity).
  vm_compute in Heq. discriminate Heq.
Qed.
End MinInvestment.

(** ** Entry: failure containment *)

Section Entry.
Import ArbitrageEngine.
Local Open Scope Q_scope.

(** C9. Every call of one_click_arbitrage either fails and leaves the
    live position map exactly as it was, or succeeds after both the spot
    buy and the futures sell were accepted, and then the map is the old
    one with the new Position stored under the symbol. *)
Theorem failed_entry_keeps_positions (c : Client.t) (now : Q) (e : t)
    (symbol : string) (total_amount : Q) (leverage : Z) :
  let out := one_click_arbitrage c now e symbol total_amount leverage in
  (TradingResult.success (fst out) = false
   /\ positions (snd out) = positions e)
  \/ (TradingResult.success (fst out) = true
      /\ exists position spot_id futures_id futures_qty,
           Client.place_order c symbol Buy (total_amount / 2) Spot
             = RetOk spot_id
           /\ Client.place_order c symbol Sell futures_qty Linear
              = RetOk futures_id
           /\ positions (snd out) = <[symbol := position]> (positions e)).
Proof.
  intros out. subst out.
  unfold one_click_arbitrage, calculate_capital_allocation, fail.
  repeat case_match;
    cbn [fst snd TradingResult.success TradingResult.failed positions
         set_rules_manager set_positions];
    try (left; split; reflexivity).
  (* the two remaining paths differ in the answer to set_leverage *)
  all: right; (split; [reflexivity |]); eauto 10.
Qed.

(** The futures sell is refused after the spot buy went through: the
    call fails and the ledger stays empty. *)
Example futures_leg_refused_keeps_positions :
  let c := Spec.exchange false 100 100 None [] [] in
  let c := Client.mk (Client.demo c) (Client.get_instruments_info c)
             (Client.get_tickers c)
             (fun symbol side qty category =>
                match category with
                | Spot => RetOk (Some "spot-1"%string)
                | Linear => RetErr (Some "insufficient margin"%string)
                end)
             (Client.set_leverage c) (Client.cancel_order c)
             (Client.get_positions c) (Client.get_account_balance c) in
  let out := one_click_arbitrage c 1000000 init "SOLUSDT" 1000 2 in
  TradingResult.message (fst out)
    = FuturesSellFailed (Some "insufficient margin"%string)
  /\ positions (snd out) = ∅.
Proof. vm_compute. split; reflexivity. Qed.

(** What a successful entry stores: each leg is its own amount over its own
    price, quantized to its own step and precision; the futures amount is
    the margin, total / 2 / leverage. *)
Lemma entry_stores_quantized_legs (c : Client.t) (now : Q) (e : t)
    (symbol : string) (total_amount : Q) (leverage : Z) :
  let out := one_click_arbitrage c now e symbol total_amount leverage in
  let tips :=
    fst (TradingRulesManager.get_trading_tips c now (rules_manager e) symbol) in
  let quantize := fun (qty : Q) (rules : Tips.leg) =>
    Py.round_ndigits
      (inject_Z (Py.round (qty / Tips.qty_step rules)) * Tips.qty_step rules)
      (Tips.qty_precision rules) in
  TradingResult.success (fst out) = true ->
  exists spot_price futures_price position,
    get_spot_price c symbol = Some spot_price
    /\ get_futures_price c symbol = Some futures_price
    /\ positions (snd out) !! symbol = Some position
    /\ Position.spot_qty position
       = quantize (total_amount / 2 / spot_price) (Tips.spot_rules tips)
    /\ Position.futures_qty position
       = quantize (total_amount / 2 / inject_Z leverage / futures_price)
           (Tips.linear_rules tips).
Proof.
  intros out tips quantize. subst out tips quantize.
  unfold one_click_arbitrage, calculate_capital_allocation, fail, usable_price.
  repeat case_match;
    cbn [fst snd TradingResult.success TradingResult.failed positions
         set_rules_manager set_positions];
    intros Hok; try discriminate Hok; simplify_eq.
  all: do 3 eexists; rewrite lookup_insert_eq;
    repeat (split; [reflexivity |]); reflexivity.
Qed.
End Entry.

(** ** Exit *)

Section Exit.
Import ArbitrageEngine.
Local Open Scope Q_scope.

Lemma refresh_keeps_history (c : Client.t) (now : Q) (e : t) :
  closed_positions (snd (get_positions_summary c now e)) = closed_positions e.
Proof. reflexivity. Qed.

Ltac close_cases :=
  unfold close_position, fail;
  repeat case_match;
  cbn [fst snd TradingResult.success TradingResult.failed
       TradingResult.futures_qty positions closed_positions rules_manager
       set_rules_manager set_positions] in *.

(** C10. Every call of close_position either fails, and then the history
    is unchanged and the live map is the one produced by the
    reconciliation step that opens the call (no quantity was decremented),
    or succeeds after both the spot sell and the futures buy were
    accepted, and then exactly one record was appended. *)
Theorem failed_close_keeps_history (c : Client.t) (now : Q) (e : t)
    (symbol : string) :
  let out := close_position c now e symbol in
  (TradingResult.success (fst out) = false
   /\ closed_positions (snd out) = closed_positions e
   /\ positions (snd out) = positions (snd (get_positions_summary c now e)))
  \/ (TradingResult.success (fst out) = true
      /\ exists spot_qty futures_qty spot_id futures_id closed,
           Client.place_order c symbol Sell spot_qty Spot = RetOk spot_id
           /\ Client.place_order c symbol Buy futures_qty Linear
              = RetOk futures_id
           /\ closed_positions (snd out) = closed_positions e ++ [closed]).
Proof.
  intros out. subst out. close_cases;
    try (left; repeat split; reflexivity);
    right; (split; [reflexivity |]); eauto 10.
Qed.

(** C6. After a successful close_position the symbol is no longer in the
    live map, whatever spot quantity is left over, and the futures buy
    that was accepted covers the whole futures leg. *)
Theorem successful_close_removes_position (c : Client.t) (now : Q) (e : t)
    (symbol : string) :
  let out := close_position c now e symbol in
  let e1 := snd (get_positions_summary c now e) in
  let tips :=
    fst (TradingRulesManager.get_trading_tips c now (rules_manager e1) symbol) in
  TradingResult.success (fst out) = true ->
  positions (snd out) !! symbol = None
  /\ exists position futures_id,
       positions e1 !! symbol = Some position
       /\ Client.place_order c symbol Buy
            (Py.round_ndigits (Qabs (Position.futures_qty position))
               (Tips.qty_precision (Tips.linear_rules tips))) Linear
          = RetOk futures_id
       /\ TradingResult.futures_qty (fst out)
          = Qabs (Position.futures_qty position).
Proof.
  intros out e1 tips. subst out e1 tips. close_cases;
    intros Hok; try discriminate Hok; simplify_eq.
  (* two ways to delete remain; keeping the entry is excluded, the
     futures quantity having just been set to zero *)
  - split; [apply lookup_delete_eq |]. eauto 10.
  - split; [apply lookup_delete_eq |]. eauto 10.
Qed.

(** Scenario D: 5.0005 SOL held against a short of 5; the close sells 5,
    leaves 0.0005 on the spot side, and the entry is gone. *)
Lemma successful_close_removes_position_witness :
  let c := Spec.sol_exchange 5 (50005 # 10000) in
  let e := Spec.holding (Spec.sol_position (50005 # 10000) (-5)) in
  let out := close_position c 1000060 e "SOLUSDT" in
  (exists pnl rest, TradingResult.message (fst out) = CloseDone pnl true rest
                    /\ rest == 5 # 10000)
  /\ positions (snd out) !! "SOLUSDT"%string = None.
Proof.
  cbv zeta. split.
  - vm_compute. do 2 eexists. split; reflexivity.
  - apply (successful_close_removes_position
             (Spec.sol_exchange 5 (50005 # 10000)) 1000060
             (Spec.holding (Spec.sol_position (50005 # 10000) (-5)))
             "SOLUSDT").
    vm_compute. reflexivity.
Defined.

Lemma no_period_no_income (c : Client.t) (now : Q) (position : Position.t)
    (close_quantity : Q) :
  Py.int ((now - Position.entry_time position) / 3600 / 8) = 0%Z ->
  calculate_funding_income c now position close_quantity = 0.
Proof.
  intros Hzero. unfold calculate_funding_income.
  destruct (get_funding_rate c (Position.symbol position)); [| reflexivity].
  destruct (Py.truthy q); [| reflexivity].
  rewrite Hzero. reflexivity.
Qed.

(** C5. A position closed successfully at its own entry prices, before a
    first funding period has elapsed, realises exactly minus the fees:
    0.1% of the entry plus exit spot notional and 0.055% of the entry
    plus exit futures notional, with no funding term. *)
Theorem round_trip_is_pure_fee_loss (c : Client.t) (now : Q) (e : t)
    (symbol : string) (position : Position.t) (spot_price futures_price : Q) :
  let out := close_position c now e symbol in
  let close_spot_qty :=
    Py.min (Position.spot_qty position) (Qabs (Position.futures_qty position)) in
  let spot_fees :=
    (Position.spot_avg_price position * close_spot_qty
     + spot_price * close_spot_qty) * (1 # 1000) in
  let futures_fees :=
    (Position.futures_avg_price position * Qabs (Position.futures_qty position)
     + futures_price * Qabs (Position.futures_qty position))
    * (55 # 100000) in
  positions (snd (get_positions_summary c now e)) !! symbol = Some position ->
  get_spot_price c symbol = Some spot_price ->
  get_futures_price c symbol = Some futures_price ->
  spot_price == Position.spot_avg_price position ->
  futures_price == Position.futures_avg_price position ->
  Py.int ((now - Position.entry_time position) / 3600 / 8) = 0%Z ->
  TradingResult.success (fst out) = true ->
  exists closed,
    closed_positions (snd out) = closed_positions e ++ [closed]
    /\ ClosedPosition.total_pnl closed == - (spot_fees + futures_fees).
Proof.
  intros out close_spot_qty spot_fees futures_fees
         Hpos Hsp Hfp Hsame_spot Hsame_futures Hzero.
  subst out. unfold close_position, fail.
  rewrite Hpos, Hsp, Hfp. unfold usable_price.
  pose proof (no_period_no_income c now position close_spot_qty Hzero) as Hinc.
  fold close_spot_qty. rewrite Hinc.
  repeat case_match;
    cbn [fst snd TradingResult.success TradingResult.failed
         closed_positions set_rules_manager set_positions];
    intros Hok; try discriminate Hok; simplify_eq.
  all: eexists; (split; [reflexivity |]);
    cbn [ClosedPosition.total_pnl];
    subst spot_fees futures_fees;
    unfold SPOT_FEE_RATE, FUTURES_FEE_RATE;
    rewrite Hsame_spot, Hsame_futures; ring.
Qed.

(** A full round trip: 1000 USDT entered at leverage 1 with both markets
    at 100 (5 SOL a side), closed one minute later at the same prices.
    The fees are 1 USDT on the spot side and 0.55 on the futures side. *)
Lemma round_trip_is_pure_fee_loss_witness :
  let c := Spec.sol_exchange 5 5 in
  let opened := snd (one_click_arbitrage c 1000000 init "SOLUSDT" 1000 1) in
  let out := close_position c 1000060 opened "SOLUSDT" in
  exists closed,
    closed_positions (snd out) = [closed]
    /\ ClosedPosition.total_pnl closed == - (1 + (55 # 100)).
Proof.
  cbv zeta.
  set (c := Spec.sol_exchange 5 5).
  set (opened := snd (one_click_arbitrage c 1000000 init "SOLUSDT" 1000 1)).
  destruct (round_trip_is_pure_fee_loss c 1000060 opened "SOLUSDT"
              (default (Spec.sol_position 0 0)
                 (positions (snd (get_positions_summary c 1000060 opened))
                    !! "SOLUSDT"%string))
              100 100)
    as (closed & Hhist & Hpnl);
    try (vm_compute; reflexivity).
  exists closed. split; [exact Hhist |].
  rewrite Hpnl. vm_compute. reflexivity.
Defined.

(** C2, evaluated.  1000 USDT are entered at leverage 1 with both markets
    at 100, so the position is recorded with 5 SOL a side; the exchange
    reports the short, the reconciliation that opens the close turns the
    futures quantity into -5, and the close succeeds.  The record appended
    to the history carries the original spot quantity, 5, but a futures
    quantity of 0: neither the 5 recorded at entry nor the -5 held when the
    close began. *)
Theorem closed_record_loses_futures_qty :
  let c := Spec.sol_exchange 5 5 in
  let opened := snd (one_click_arbitrage c 1000000 init "SOLUSDT" 1000 1) in
  let out := close_position c 1000060 opened "SOLUSDT" in
  TradingResult.success (fst out) = true
  /\ exists at_entry before closed,
       positions opened !! "SOLUSDT"%string = Some at_entry
       /\ Position.spot_qty at_entry == 5
       /\ Position.futures_qty at_entry == 5
       /\ positions (snd (get_positions_summary c 1000060 opened))
            !! "SOLUSDT"%string = Some before
       /\ Position.spot_qty before == 5
       /\ Position.futures_qty before == -5
       /\ closed_positions (snd out) = [closed]
       /\ ClosedPosition.spot_qty closed == 5
       /\ ClosedPosition.close_futures_qty closed == 5
       /\ ClosedPosition.futures_qty closed == 0.
Proof.
  vm_compute. split; [reflexivity |]. do 3 eexists.
  repeat (split; [reflexivity |]). reflexivity.
Qed.

(** The same loss on every successful close: the snapshot reads the
    futures quantity after it has been overwritten with zero. *)
Lemma closed_record_futures_qty_zero (c : Client.t) (now : Q) (e : t)
    (symbol : string) :
  TradingResult.success (fst (close_position c now e symbol)) = true ->
  exists closed,
    closed_positions (snd (close_position c now e symbol))
      = closed_positions e ++ [closed]
    /\ ClosedPosition.futures_qty closed = 0.
Proof.
  close_cases; intros Hok; try discriminate Hok;
    eexists; split; reflexivity.
Qed.
End Exit.

(** ** Bounds on the numeric builtins *)

Section NumericBounds.
Local Open Scope Q_scope.

Lemma round_of_integer (k : Z) : Py.round (inject_Z k) = k.
Proof.
  unfold Py.round. rewrite Qfloor_Z.
  assert (E : inject_Z k - inject_Z k == 0) by ring.
  rewrite (Qcompare_comp _ _ E _ _ (Qeq_refl (1 # 2))). reflexivity.
Qed.

Lemma round_error (x : Q) : Qabs (inject_Z (Py.round x) - x) <= 1 # 2.
Proof.
  unfold Py.round.
  pose proof (Qfloor_le x) as Hlo. pose proof (Qlt_floor x) as Hhi.
  rewrite inject_Z_plus in Hhi.
  change (inject_Z 1) with 1 in Hhi.
  generalize dependent (Qfloor x). intros f Hlo Hhi.
  destruct (x - inject_Z f ?= 1 # 2) eqn:Hc.
  - apply Qeq_alt in Hc.
    destruct (Z.even f);
      [| rewrite inject_Z_plus; change (inject_Z 1) with 1];
      apply Qabs_Qle_condition; lra.
  - apply Qlt_alt in Hc. apply Qabs_Qle_condition; lra.
  - apply Qgt_alt in Hc. rewrite inject_Z_plus. change (inject_Z 1) with 1.
    apply Qabs_Qle_condition; lra.
Qed.

Lemma pow10_pos (n : nat) : 0 < Py.pow10 n.
Proof.
  unfold Py.pow10. replace 0 with (inject_Z 0) by reflexivity.
  rewrite <- Zlt_Qlt. apply Z.pow_pos_nonneg; lia.
Qed.

Lemma round_ndigits_error (y : Q) (n : nat) :
  Qabs (Py.round_ndigits y n - y) <= (1 # 2) / Py.pow10 n.
Proof.
  unfold Py.round_ndigits. pose proof (pow10_pos n) as Hp.
  set (p := Py.pow10 n) in *.
  pose proof (round_error (y * p)) as Hr.
  set (r := inject_Z (Py.round (y * p))) in *.
  assert (Hinv : 0 < / p) by (apply Qinv_lt_0_compat; exact Hp).
  assert (E : r / p - y == (r - y * p) * / p) by (field; lra).
  rewrite E, Qabs_Qmult, (Qabs_pos (/ p)) by lra.
  unfold Qdiv. apply Qmult_le_compat_r; [exact Hr | lra].
Qed.

Lemma step_rounding_error (q step : Q) :
  ~ step == 0 ->
  Qabs (inject_Z (Py.round (q / step)) * step - q) <= Qabs step * (1 # 2).
Proof.
  intros Hs. pose proof (round_error (q / step)) as Hr.
  set (r := inject_Z (Py.round (q / step))) in *.
  assert (E : r * step - q == (r - q / step) * step) by (field; exact Hs).
  rewrite E, Qabs_Qmult, (Qmult_comm (Qabs step)).
  apply Qmult_le_compat_r; [exact Hr | apply Qabs_nonneg].
Qed.

Lemma quantize_error (q step : Q) (n : nat) :
  ~ step == 0 ->
  Qabs (Py.round_ndigits (inject_Z (Py.round (q / step)) * step) n - q)
  <= Qabs step * (1 # 2) + (1 # 2) / Py.pow10 n.
Proof.
  intros Hs.
  set (q1 := inject_Z (Py.round (q / step)) * step).
  assert (E : Py.round_ndigits q1 n - q
              == (Py.round_ndigits q1 n - q1) + (q1 - q)) by ring.
  rewrite E.
  eapply Qle_trans; [apply Qabs_triangle |].
  pose proof (round_ndigits_error q1 n).
  pose proof (step_rounding_error q step Hs). fold q1 in H0. lra.
Qed.

Lemma round_ndigits_of_decimal (k : Z) (n : nat) :
  Py.round_ndigits (inject_Z k / Py.pow10 n) n = inject_Z k / Py.pow10 n.
Proof.
  unfold Py.round_ndigits. pose proof (pow10_pos n) as Hp.
  rewrite (round_comp (inject_Z k / Py.pow10 n * Py.pow10 n) (inject_Z k))
    by (field; lra).
  rewrite round_of_integer. reflexivity.
Qed.

Lemma round_ndigits_on_grid (k : Z) (step : Q) (n : nat) :
  step == 1 / Py.pow10 n ->
  Py.round_ndigits (inject_Z k * step) n == inject_Z k * step.
Proof.
  intros Hstep. pose proof (pow10_pos n) as Hp.
  rewrite (round_ndigits_comp _ (inject_Z k / Py.pow10 n))
    by (rewrite Hstep; field; lra).
  rewrite round_ndigits_of_decimal, Hstep. field. lra.
Qed.

Lemma int_of_nonneg (x : Q) (k : Z) :
  (0 <= k)%Z -> inject_Z k <= x -> x < inject_Z k + 1 -> Py.int x = k.
Proof.
  intros Hk Hlo Hhi. unfold Py.int.
  assert (H0 : 0 <= x).
  { apply Qle_trans with (inject_Z k); [| exact Hlo].
    replace 0 with (inject_Z 0) by reflexivity. rewrite <- Zle_Qle. exact Hk. }
  assert (Hn : (0 <= Qnum x)%Z).
  { destruct x as [a b]. unfold Qle in H0. simpl in *. lia. }
  rewrite Z.quot_div_nonneg by lia.
  assert (Hf : Qfloor x = k).
  { apply Z.le_antisymm.
    - apply Z.lt_succ_r. rewrite Zlt_Qlt.
      apply Qle_lt_trans with x; [apply Qfloor_le |].
      unfold Z.succ. rewrite inject_Z_plus. exact Hhi.
    - rewrite <- (Qfloor_Z k). apply Qfloor_resp_le. exact Hlo. }
  rewrite <- Hf. destruct x. reflexivity.
Qed.
End NumericBounds.

(** ** Order validation *)

Section Validation.
Import TradingRulesManager.
Local Open Scope Q_scope.

Lemma validate_sound (c : Client.t) (now : Q) (m : t)
    (symbol : string) (qty price : Q) (category : Category) :
  let rule := rule_of (fst (get_trading_rules c now m symbol false)) category in
  let remainder := Py.mod_ qty (MarketRules.qty_step rule) in
  fst (validate_order_params c now m symbol qty price category) = None ->
  MarketRules.min_order_qty rule <= qty <= MarketRules.max_order_qty rule
  /\ MarketRules.min_order_amt rule <= qty * price
     <= MarketRules.max_order_amt rule
  /\ (0 < MarketRules.qty_step rule ->
      Qabs remainder <= 1 # 10000000000
      \/ Qabs (remainder - MarketRules.qty_step rule) <= 1 # 10000000000).
Proof.
  intros rule remainder. subst rule remainder.
  unfold validate_order_params.
  destruct (get_trading_rules c now m symbol false) as [rules m1].
  cbn [fst snd].
  repeat case_match; cbn [fst]; intros Hok; try discriminate Hok.
  repeat match goal with
         | H : Py.ltb _ _ = false |- _ => apply ltb_false in H
         end.
  repeat split; try assumption.
  intros Hstep. apply ltb_true in Hstep.
  match goal with
  | H : _ && _ = false |- _ => rewrite Hstep in H; cbn [andb] in H;
      apply andb_false_iff in H; destruct H as [H | H];
      apply ltb_false in H; [left | right]; exact H
  end.
Qed.

(** X1. An order that validate_order_params accepts has its quantity
    between min_order_qty and max_order_qty, its notional qty * price
    between min_order_amt and max_order_amt, and, when the step is
    positive, a remainder qty % step within 1e-10 of zero or of the step. *)
Theorem accepted_order_within_rules (c : Client.t) (now : Q) (m : t)
    (symbol : string) (qty price : Q) (category : Category) :
  let rule := rule_of (fst (get_trading_rules c now m symbol false)) category in
  let remainder := Py.mod_ qty (MarketRules.qty_step rule) in
  fst (validate_order_params c now m symbol qty price category) = None ->
  MarketRules.min_order_qty rule <= qty <= MarketRules.max_order_qty rule
  /\ MarketRules.min_order_amt rule <= qty * price
     <= MarketRules.max_order_amt rule
  /\ (0 < MarketRules.qty_step rule ->
      Qabs remainder <= 1 # 10000000000
      \/ Qabs (remainder - MarketRules.qty_step rule) <= 1 # 10000000000).
Proof. exact (validate_sound c now m symbol qty price category). Qed.

Lemma accepted_order_within_rules_witness :
  let rule := _get_default_rules in
  MarketRules.min_order_qty rule <= 5 <= MarketRules.max_order_qty rule
  /\ MarketRules.min_order_amt rule <= 5 * 100
     <= MarketRules.max_order_amt rule.
Proof.
  cbv zeta.
  destruct (accepted_order_within_rules
              (Spec.exchange false 100 100 None [] []) 1000000 init
              "SOLUSDT" 5 100 Spot) as (Hq & Ha & _).
  - vm_compute. reflexivity.
  - split; [exact Hq | exact Ha].
Defined.

(** X2. The converse of X1: validate_order_params accepts every order
    whose quantity lies between min_order_qty and max_order_qty, whose
    notional qty * price lies between min_order_amt and max_order_amt,
    and whose remainder qty % step, when the step is positive, is within
    1e-10 of zero or of the step.  Nothing else is checked; with a step
    that is not positive the remainder is not looked at. *)
Theorem validation_accepts_within_tolerance (c : Client.t) (now : Q) (m : t)
    (symbol : string) (qty price : Q) (category : Category) :
  let rule := rule_of (fst (get_trading_rules c now m symbol false)) category in
  let remainder := Py.mod_ qty (MarketRules.qty_step rule) in
  MarketRules.min_order_qty rule <= qty <= MarketRules.max_order_qty rule ->
  MarketRules.min_order_amt rule <= qty * price
    <= MarketRules.max_order_amt rule ->
  (0 < MarketRules.qty_step rule ->
   Qabs remainder <= 1 # 10000000000
   \/ Qabs (remainder - MarketRules.qty_step rule) <= 1 # 10000000000) ->
  fst (validate_order_params c now m symbol qty price category) = None.
Proof.
  intros rule remainder [Hq1 Hq2] [Ha1 Ha2] Hrem. subst rule remainder.
  unfold validate_order_params.
  destruct (get_trading_rules c now m symbol false) as [rules m1].
  cbn [fst snd] in *.
  set (rule := rule_of rules category) in *.
  apply ltb_false in Hq1, Hq2, Ha1, Ha2.
  rewrite Hq1, Hq2.
  destruct (Py.ltb 0 (MarketRules.qty_step rule)) eqn:Hstep; cbn [andb].
  - apply ltb_true in Hstep.
    destruct (Hrem Hstep) as [H | H]; apply ltb_false in H; rewrite H;
      rewrite ?andb_false_r; cbn [andb]; rewrite Ha1, Ha2; reflexivity.
  - rewrite Ha1, Ha2. reflexivity.
Qed.

Lemma validation_accepts_within_tolerance_witness :
  let half_steps := MarketRules.mk (1 # 2) 1000 (1 # 2) 5 100000 2 1 5 "Trading" in
  fst (validate_order_params (Spec.listing half_steps) 1000000
         init "SOLUSDT" 5 100 Linear) = None.
Proof.
  cbv zeta.
  apply (validation_accepts_within_tolerance
           (Spec.listing
              (MarketRules.mk (1 # 2) 1000 (1 # 2) 5 100000 2 1 5 "Trading"))
           1000000 init "SOLUSDT" 5 100 Linear).
  - vm_compute. split; discriminate.
  - vm_compute. split; discriminate.
  - intros _. left. vm_compute. discriminate.
Defined.
End Validation.

(** ** The rules cache, continued *)

Section RulesCacheMore.
Import TradingRulesManager.
Local Open Scope Q_scope.

Lemma cache_after_lookup (c : Client.t) (now : Q) (m : t)
    (symbol : string) (force_refresh : bool) :
  let out := get_trading_rules c now m symbol force_refresh in
  rules_cache (snd out) !! symbol = Some (fst out)
  /\ forall other, other <> symbol ->
       rules_cache (snd out) !! other = rules_cache m !! other.
Proof.
  intros out. subst out. unfold get_trading_rules.
  destruct (negb force_refresh && _is_cache_valid m now);
    [destruct (rules_cache m !! symbol) eqn:Hin |]; cbn [fst snd rules_cache].
  - split; [exact Hin | reflexivity].
  - split; [apply lookup_insert_eq |].
    intros other Hne. apply lookup_insert_ne. congruence.
  - split; [apply lookup_insert_eq |].
    intros other Hne. apply lookup_insert_ne. congruence.
Qed.

(** X3. After get_trading_rules the cache holds, under the symbol, the
    rule set that was returned, and the entries of all other symbols are
    as before. *)
Theorem cache_holds_what_was_returned (c : Client.t) (now : Q) (m : t)
    (symbol : string) (force_refresh : bool) :
  let out := get_trading_rules c now m symbol force_refresh in
  rules_cache (snd out) !! symbol = Some (fst out)
  /\ forall other, other <> symbol ->
       rules_cache (snd out) !! other = rules_cache m !! other.
Proof. exact (cache_after_lookup c now m symbol force_refresh). Qed.

Lemma lookup_again (c c' : Client.t) (now now' : Q) (m : t)
    (symbol : string) (force_refresh : bool) :
  now' - cache_time (snd (get_trading_rules c now m symbol force_refresh))
    < cache_duration ->
  get_trading_rules c' now' (snd (get_trading_rules c now m symbol force_refresh))
    symbol false
  = get_trading_rules c now m symbol force_refresh.
Proof.
  intros Hfresh.
  destruct (cache_after_lookup c now m symbol force_refresh) as [Hin _].
  rewrite (cache_hit_within_shared_window c' now' _ symbol _ Hin Hfresh).
  destruct (get_trading_rules c now m symbol force_refresh). reflexivity.
Qed.

(** X4. Whatever a first call did, a later call without force_refresh made
    less than 3600 seconds after the manager's time stamp returns the same
    rule set and leaves the manager unchanged, whatever the exchange would
    answer by then. *)
Theorem served_from_cache_within_window (c c' : Client.t) (now now' : Q)
    (m : t) (symbol : string) (force_refresh : bool) :
  let first := get_trading_rules c now m symbol force_refresh in
  now' - cache_time (snd first) < 3600 ->
  get_trading_rules c' now' (snd first) symbol false = first.
Proof. intros first. apply lookup_again. Qed.

Lemma served_from_cache_within_window_witness :
  get_trading_rules (Spec.listing Spec.rules_v2) 1003599
    (snd (get_trading_rules (Spec.listing Spec.rules_v1) 1000000 init
            "SOLUSDT" true)) "SOLUSDT" false
  = get_trading_rules (Spec.listing Spec.rules_v1) 1000000 init "SOLUSDT" true.
Proof.
  apply (served_from_cache_within_window (Spec.listing Spec.rules_v1)
           (Spec.listing Spec.rules_v2) 1000000 1003599 init "SOLUSDT" true).
  vm_compute. reflexivity.
Defined.

Lemma stamp_after_lookup (c : Client.t) (now : Q) (m : t) (symbol : string)
    (force_refresh : bool) :
  now - cache_time (snd (get_trading_rules c now m symbol force_refresh))
    < cache_duration.
Proof.
  unfold get_trading_rules.
  destruct (negb force_refresh && _is_cache_valid m now) eqn:Hc;
    [destruct (rules_cache m !! symbol) |]; cbn [snd cache_time].
  - apply andb_true_iff in Hc. destruct Hc as [_ Hv]. apply ltb_true. exact Hv.
  - unfold cache_duration. lra.
  - unfold cache_duration. lra.
Qed.

Lemma lookup_repeats_at_same_instant (c c' : Client.t) (now : Q) (m : t)
    (symbol : string) (force_refresh : bool) :
  let first := get_trading_rules c now m symbol force_refresh in
  get_trading_rules c' now (snd first) symbol false = first.
Proof. intros first. apply lookup_again, stamp_after_lookup. Qed.

Lemma validate_keeps_manager (c : Client.t) (now : Q) (m : t)
    (symbol : string) (qty price : Q) (category : Category) :
  snd (validate_order_params c now m symbol qty price category)
  = snd (get_trading_rules c now m symbol false).
Proof.
  unfold validate_order_params.
  destruct (get_trading_rules c now m symbol false) as [rules m1].
  repeat case_match; reflexivity.
Qed.
End RulesCacheMore.

Section EntryMore.
Import ArbitrageEngine.
Local Open Scope Q_scope.

Ltac entry_cases :=
  unfold one_click_arbitrage, calculate_capital_allocation, fail, usable_price;
  repeat case_match;
  cbn [fst snd TradingResult.success TradingResult.failed positions
       rules_manager set_rules_manager set_positions] in *.

(** X5. On a successful one_click_arbitrage each stored quantity differs
    from its raw quantity (amount over price) by at most half a step plus
    half a unit of the last kept decimal. *)
Theorem successful_entry_error_bound (c : Client.t) (now : Q) (e : t)
    (symbol : string) (total_amount : Q) (leverage : Z) :
  let out := one_click_arbitrage c now e symbol total_amount leverage in
  let tips :=
    fst (TradingRulesManager.get_trading_tips c now (rules_manager e) symbol) in
  let slack := fun rules : Tips.leg =>
    Qabs (Tips.qty_step rules) * (1 # 2)
    + (1 # 2) / Py.pow10 (Tips.qty_precision rules) in
  TradingResult.success (fst out) = true ->
  exists spot_price futures_price position,
    get_spot_price c symbol = Some spot_price
    /\ get_futures_price c symbol = Some futures_price
    /\ positions (snd out) !! symbol = Some position
    /\ Qabs (Position.spot_qty position - total_amount / 2 / spot_price)
       <= slack (Tips.spot_rules tips)
    /\ Qabs (Position.futures_qty position
             - total_amount / 2 / inject_Z leverage / futures_price)
       <= slack (Tips.linear_rules tips).
Proof.
  intros out tips slack. subst out tips slack. entry_cases;
    intros Hok; try discriminate Hok; simplify_eq.
  all: match goal with
       | H : Qeq_bool _ 0 || Qeq_bool _ 0 = false |- _ =>
           apply orb_false_iff in H; destruct H as [Hs Hf];
           apply Qeq_bool_neq in Hs, Hf
       end.
  all: do 3 eexists; rewrite lookup_insert_eq;
    repeat (split; [reflexivity |]);
    cbn [Position.spot_qty Position.futures_qty];
    split; apply quantize_error; assumption.
Qed.

Lemma successful_entry_error_bound_witness :
  let c := Spec.exchange false 100 100 None [] [] in
  let out := one_click_arbitrage c 1000000 init "SOLUSDT" 1000 3 in
  exists position,
    positions (snd out) !! "SOLUSDT"%string = Some position
    /\ Qabs (Position.futures_qty position - 1000 / 2 / 3 / 100) <= 1 # 1000.
Proof.
  cbv zeta.
  destruct (successful_entry_error_bound
              (Spec.exchange false 100 100 None [] []) 1000000 init
              "SOLUSDT" 1000 3)
    as (sp & fp & position & Hsp & Hfp & Hpos & _ & Hbound).
  - vm_compute. reflexivity.
  - exists position. split; [exact Hpos |].
    assert (Hfp' : fp = 100) by (vm_compute in Hfp; congruence).
    subst fp. eapply Qle_trans; [exact Hbound |]. vm_compute. discriminate.
Defined.

Lemma timed_entry_at_once (c : Client.t) (now : Q) (e : t)
    (symbol : string) (total_amount : Q) (leverage : Z) :
  Timed.one_click_arbitrage c (Readings.at_once now) e symbol total_amount
    leverage
  = one_click_arbitrage c now e symbol total_amount leverage.
Proof. reflexivity. Qed.

(** The cache expiring inside one entry.  The manager holds rules_v1
    (max_leverage 5) fetched at 0 and the exchange now lists rules_v2
    (max_leverage 3).  An entry at leverage 4 made entirely at 3599 is
    served from the cache and succeeds, one made entirely at 3600 is
    refused on the leverage, and one that reads 3599 for the tips and
    3600 for the validations succeeds with the manager holding rules_v2. *)
Lemma cache_expiry_inside_entry :
  let c := Timed.relisted Spec.rules_v2 100 100 in
  let e := Timed.fetched_at_0 Spec.rules_v1 in
  let entry := fun clock => Timed.one_click_arbitrage c clock e "SOLUSDT" 1600 4 in
  let straddling := entry (Readings.mk 3599 3599 3600 3600 3600) in
  TradingResult.success (fst (entry (Readings.at_once 3599))) = true
  /\ TradingResult.message (fst (entry (Readings.at_once 3600)))
     = LeverageOutOfRange 3 4
  /\ TradingResult.success (fst straddling) = true
  /\ Rules.linear <$> TradingRulesManager.rules_cache
                        (rules_manager (snd straddling)) !! "SOLUSDT"%string
     = Some Spec.rules_v2.
Proof. vm_compute. repeat split; reflexivity. Qed.

(** X6. With one clock reading per rule lookup: on a successful
    one_click_arbitrage the leverage lies between 1 and the max_leverage
    quoted by get_trading_tips, the stored spot quantity and its notional
    lie within the bounds of the rule set that the spot
    validate_order_params call looked up, the stored futures quantity and
    its notional within the bounds of the rule set that the futures
    validate_order_params call looked up, and the manager is left as that
    last lookup left it.  These can be different rule sets when the cache
    expires during the call. *)
Theorem successful_entry_within_looked_up_rules (c : Client.t)
    (clock : Readings.t) (e : t) (symbol : string) (total_amount : Q)
    (leverage : Z) :
  let out :=
    Timed.one_click_arbitrage c clock e symbol total_amount leverage in
  let quoted :=
    Timed.get_trading_tips c (Readings.tips_lookup clock)
      (Readings.min_investment_lookup clock) (rules_manager e) symbol in
  let spot_lookup :=
    TradingRulesManager.get_trading_rules c (Readings.spot_check clock)
      (snd quoted) symbol false in
  let futures_lookup :=
    TradingRulesManager.get_trading_rules c (Readings.futures_check clock)
      (snd spot_lookup) symbol false in
  let within := fun (rule : MarketRules.t) (qty price : Q) =>
    MarketRules.min_order_qty rule <= qty <= MarketRules.max_order_qty rule
    /\ MarketRules.min_order_amt rule <= qty * price
       <= MarketRules.max_order_amt rule in
  TradingResult.success (fst out) = true ->
  1 <= inject_Z leverage <= Tips.max_leverage (Tips.linear_rules (fst quoted))
  /\ exists spot_price futures_price position,
       get_spot_price c symbol = Some spot_price
       /\ get_futures_price c symbol = Some futures_price
       /\ positions (snd out) !! symbol = Some position
       /\ within (Rules.spot (fst spot_lookup))
            (Position.spot_qty position) spot_price
       /\ within (Rules.linear (fst futures_lookup))
            (Position.futures_qty position) futures_price
       /\ rules_manager (snd out) = snd futures_lookup.
Proof.
  intros out quoted spot_lookup futures_lookup within.
  subst out quoted spot_lookup futures_lookup within.
  unfold Timed.one_click_arbitrage, calculate_capital_allocation, fail,
    usable_price.
  destruct (Timed.get_trading_tips c (Readings.tips_lookup clock)
              (Readings.min_investment_lookup clock) (rules_manager e) symbol)
    as [tips m1].
  repeat case_match;
    cbn [fst snd TradingResult.success TradingResult.failed positions
         rules_manager set_rules_manager set_positions] in *;
    intros Hok; try discriminate Hok; simplify_eq.
  all: match goal with
       | H : Py.ltb _ 1 || Py.ltb _ _ = false |- _ =>
           apply orb_false_iff in H; destruct H as [Hlo Hhi];
           apply ltb_false in Hlo, Hhi
       end.
  all: split; [split; assumption |].
  all: repeat match goal with
       | H : TradingRulesManager.validate_order_params ?c ?n ?m ?s ?q ?p ?cat
             = (None, ?m') |- _ =>
           let Hb := fresh "Hb" in let Hk := fresh "Hk" in
           pose proof (validate_sound c n m s q p cat) as Hb;
           pose proof (validate_keeps_manager c n m s q p cat) as Hk;
           rewrite H in Hb, Hk; cbn [fst snd] in Hb, Hk;
           specialize (Hb eq_refl); destruct Hb as (? & ? & _);
           subst m'; clear H
       end.
  all: do 3 eexists; rewrite lookup_insert_eq;
    repeat (split; [reflexivity |]);
    cbn [Position.spot_qty Position.futures_qty
         TradingRulesManager.rule_of] in *;
    repeat split; tauto.
Qed.

Lemma successful_entry_within_looked_up_rules_witness :
  let c := Timed.relisted Spec.rules_v2 100 100 in
  let e := Timed.fetched_at_0 Spec.rules_v1 in
  let clock := Readings.mk 3599 3599 3600 3600 3600 in
  let out := Timed.one_click_arbitrage c clock e "SOLUSDT" 1600 4 in
  1 <= 4 <= MarketRules.max_leverage Spec.rules_v1
  /\ exists position,
       positions (snd out) !! "SOLUSDT"%string = Some position
       /\ MarketRules.min_order_qty Spec.rules_v2
          <= Position.futures_qty position
          <= MarketRules.max_order_qty Spec.rules_v2.
Proof.
  cbv zeta.
  destruct (successful_entry_within_looked_up_rules
              (Timed.relisted Spec.rules_v2 100 100)
              (Readings.mk 3599 3599 3600 3600 3600)
              (Timed.fetched_at_0 Spec.rules_v1) "SOLUSDT" 1600 4)
    as (Hlev & sp & fp & position & _ & _ & Hpos & _ & [Hq _] & _).
  - vm_compute. reflexivity.
  - split; [exact Hlev |].
    exists position. split; [exact Hpos | exact Hq].
Defined.

(** X7. When each step is one unit of the last kept decimal
    (step = 10^-precision), the quantities stored by a successful
    one_click_arbitrage are exact multiples of their steps. *)
Theorem successful_entry_on_step_grid (c : Client.t) (now : Q) (e : t)
    (symbol : string) (total_amount : Q) (leverage : Z) :
  let out := one_click_arbitrage c now e symbol total_amount leverage in
  let tips :=
    fst (TradingRulesManager.get_trading_tips c now (rules_manager e) symbol) in
  let decimal := fun rules : Tips.leg =>
    Tips.qty_step rules == 1 / Py.pow10 (Tips.qty_precision rules) in
  TradingResult.success (fst out) = true ->
  decimal (Tips.spot_rules tips) ->
  decimal (Tips.linear_rules tips) ->
  exists position spot_steps futures_steps,
    positions (snd out) !! symbol = Some position
    /\ Position.spot_qty position
       == inject_Z spot_steps * Tips.qty_step (Tips.spot_rules tips)
    /\ Position.futures_qty position
       == inject_Z futures_steps * Tips.qty_step (Tips.linear_rules tips).
Proof.
  intros out tips decimal. subst out tips decimal. entry_cases;
    intros Hok Hs Hf; try discriminate Hok; simplify_eq.
  all: do 3 eexists; rewrite lookup_insert_eq;
    (split; [reflexivity |]);
    cbn [Position.spot_qty Position.futures_qty].
  all: split; apply round_ndigits_on_grid; assumption.
Qed.

Lemma successful_entry_on_step_grid_witness :
  let c := Spec.exchange false 100 100 None [] [] in
  let out := one_click_arbitrage c 1000000 init "SOLUSDT" 1000 3 in
  exists position futures_steps,
    positions (snd out) !! "SOLUSDT"%string = Some position
    /\ Position.futures_qty position == inject_Z futures_steps * (1 # 1000).
Proof.
  cbv zeta.
  destruct (successful_entry_on_step_grid
              (Spec.exchange false 100 100 None [] []) 1000000 init
              "SOLUSDT" 1000 3)
    as (position & ks & kf & Hpos & _ & Hf);
    try (vm_compute; reflexivity).
  exists position, kf. split; [exact Hpos | exact Hf].
Defined.
End EntryMore.

(** ** Ledger reconciliation *)

Section Reconciliation.
Import ArbitrageEngine.
Local Open Scope Q_scope.

Lemma refresh_unfold (c : Client.t) (now : Q) (e : t) :
  positions (snd (get_positions_summary c now e))
  = snd (foldl adopt_balance
           (foldl (adopt_linear now) (positions e, ∅) (Ledger.held c))
           (Ledger.wallet c)).
Proof.
  unfold get_positions_summary, Ledger.held, Ledger.wallet.
  destruct (Client.get_positions c), (Client.get_account_balance c);
    reflexivity.
Qed.

Lemma adopt_linear_at (now : Q)
    (acc : gmap string Position.t * gmap string Position.t)
    (d : PositionData.t) (s : string) :
  (fst (adopt_linear now acc d) !! s, snd (adopt_linear now acc d) !! s)
  = if String.eqb (PositionData.symbol d) s && Py.ltb 0 (PositionData.size d)
    then Ledger.linear_at now (fst acc !! s, snd acc !! s) d
    else (fst acc !! s, snd acc !! s).
Proof.
  destruct acc as [sp ac]. unfold adopt_linear. cbn [fst snd].
  destruct (Py.ltb 0 (PositionData.size d));
    rewrite ?andb_false_r, ?andb_true_r; [| reflexivity].
  destruct (String.eqb_spec (PositionData.symbol d) s) as [Heq | Hne].
  - subst s. unfold Ledger.linear_at. cbn [fst snd].
    destruct (sp !! PositionData.symbol d) eqn:E; cbn [fst snd];
      rewrite ?lookup_insert_eq, ?E; reflexivity.
  - destruct (sp !! PositionData.symbol d); cbn [fst snd];
      rewrite ?lookup_insert_ne by exact Hne; reflexivity.
Qed.

Lemma linear_fold_at (now : Q) (l : list PositionData.t)
    (acc : gmap string Position.t * gmap string Position.t) (s : string) :
  (fst (foldl (adopt_linear now) acc l) !! s,
   snd (foldl (adopt_linear now) acc l) !! s)
  = foldl (Ledger.linear_at now) (fst acc !! s, snd acc !! s)
      (List.filter
         (fun d => String.eqb (PositionData.symbol d) s
                   && Py.ltb 0 (PositionData.size d)) l).
Proof.
  revert acc. induction l as [| d l IH]; intros acc; [reflexivity |].
  cbn [foldl List.filter]. rewrite IH, adopt_linear_at.
  destruct (String.eqb (PositionData.symbol d) s
            && Py.ltb 0 (PositionData.size d)); reflexivity.
Qed.

Lemma adopt_balance_at
    (acc : gmap string Position.t * gmap string Position.t)
    (coin : string * Q) (s : string) :
  (fst (adopt_balance acc coin) !! s, snd (adopt_balance acc coin) !! s)
  = if negb (String.eqb (fst coin) "USDT") && Py.ltb 0 (snd coin)
       && String.eqb (fst coin ++ "USDT") s
    then Ledger.balance_at (fst acc !! s, snd acc !! s) (snd coin)
    else (fst acc !! s, snd acc !! s).
Proof.
  destruct acc as [sp ac], coin as [coin_name balance].
  unfold adopt_balance. cbn [fst snd].
  destruct (negb (String.eqb coin_name "USDT") && Py.ltb 0 balance);
    cbn [andb]; [| reflexivity].
  destruct (String.eqb_spec (coin_name ++ "USDT") s) as [Heq | Hne].
  - subst s. unfold Ledger.balance_at. cbn [fst snd].
    destruct (ac !! (coin_name ++ "USDT")%string) eqn:Ea; cbn [fst snd].
    + rewrite !lookup_alter_eq, Ea. reflexivity.
    + destruct (sp !! (coin_name ++ "USDT")%string) eqn:Es; cbn [fst snd];
        rewrite ?lookup_insert_eq, ?Ea, ?Es; reflexivity.
  - destruct (ac !! (coin_name ++ "USDT")%string); cbn [fst snd].
    + rewrite !lookup_alter_ne by exact Hne. reflexivity.
    + destruct (sp !! (coin_name ++ "USDT")%string); cbn [fst snd];
        rewrite ?lookup_insert_ne by exact Hne; reflexivity.
Qed.

Lemma balance_fold_at (l : list (string * Q))
    (acc : gmap string Position.t * gmap string Position.t) (s : string) :
  (fst (foldl adopt_balance acc l) !! s, snd (foldl adopt_balance acc l) !! s)
  = foldl Ledger.balance_at (fst acc !! s, snd acc !! s)
      (snd <$> List.filter
                 (fun coin : string * Q =>
                    negb (String.eqb (fst coin) "USDT") && Py.ltb 0 (snd coin)
                    && String.eqb (fst coin ++ "USDT") s) l).
Proof.
  revert acc. induction l as [| coin l IH]; intros acc; [reflexivity |].
  cbn [foldl List.filter]. rewrite IH, adopt_balance_at.
  destruct (negb (String.eqb (fst coin) "USDT") && Py.ltb 0 (snd coin)
            && String.eqb (fst coin ++ "USDT") s); reflexivity.
Qed.

Lemma overwrite_twice (d d' : PositionData.t) (pos : Position.t) :
  Ledger.overwrite_futures d (Ledger.overwrite_futures d' pos)
  = Ledger.overwrite_futures d pos.
Proof. reflexivity. Qed.

Lemma set_spot_twice (b b' : Q) (pos : Position.t) :
  Position.set_spot_qty b (Position.set_spot_qty b' pos)
  = Position.set_spot_qty b pos.
Proof. reflexivity. Qed.

Lemma linear_at_fold (now : Q) (local : option Position.t)
    (L : list PositionData.t) :
  foldl (Ledger.linear_at now) (local, None) L
  = match last L with
    | Some d =>
        (Ledger.overwrite_futures d <$> local,
         Some match local with
              | Some pos => Ledger.overwrite_futures d pos
              | None => Ledger.adopted now d
              end)
    | None => (local, None)
    end.
Proof.
  induction L as [| d L IH] using rev_ind; [reflexivity |].
  rewrite foldl_app, last_snoc, IH. cbn [foldl].
  unfold Ledger.linear_at.
  destruct (last L), local; reflexivity.
Qed.

Lemma balance_at_fold (acc : option Position.t * option Position.t)
    (B : list Q) :
  foldl Ledger.balance_at acc B
  = match last B with
    | Some b =>
        (Position.set_spot_qty b <$> fst acc,
         match snd acc with
         | Some pos => Some (Position.set_spot_qty b pos)
         | None => Position.set_spot_qty b <$> fst acc
         end)
    | None => acc
    end.
Proof.
  induction B as [| b B IH] using rev_ind; [reflexivity |].
  rewrite foldl_app, last_snoc, IH. cbn [foldl].
  unfold Ledger.balance_at.
  destruct acc as [[p |] [q |]], (last B); reflexivity.
Qed.

Lemma refresh_at (c : Client.t) (now : Q) (e : t) (s : string) :
  positions (snd (get_positions_summary c now e)) !! s
  = Ledger.merged now (positions e !! s)
      (last (Ledger.listed c s)) (last (Ledger.balances c s)).
Proof.
  rewrite refresh_unfold.
  pose proof (balance_fold_at (Ledger.wallet c)
                (foldl (adopt_linear now) (positions e, ∅) (Ledger.held c)) s)
    as H.
  apply (f_equal snd) in H. cbn [snd] in H. rewrite H. clear H.
  rewrite linear_fold_at. cbn [fst snd]. rewrite lookup_empty.
  rewrite linear_at_fold, balance_at_fold.
  unfold Ledger.merged, Ledger.listed, Ledger.balances.
  destruct (last (List.filter _ (Ledger.held c))),
           (positions e !! s), (last (snd <$> List.filter _ (Ledger.wallet c)));
    reflexivity.
Qed.

Lemma listed_spec (c : Client.t) (s : string) (d : PositionData.t) :
  d ∈ Ledger.listed c s <-> Ledger.reports c s d.
Proof.
  unfold Ledger.listed, Ledger.reports.
  rewrite list_elem_of_In, filter_In, <- list_elem_of_In, andb_true_iff,
    String.eqb_eq, ltb_true.
  tauto.
Qed.

Lemma balances_spec (c : Client.t) (s : string) (b : Q) :
  b ∈ Ledger.balances c s <-> Ledger.funds c s b.
Proof.
  unfold Ledger.balances, Ledger.funds. rewrite list_elem_of_fmap. split.
  - intros ([coin b'] & -> & Hin).
    rewrite list_elem_of_In, filter_In, <- list_elem_of_In in Hin.
    cbn [fst snd] in *.
    rewrite !andb_true_iff, negb_true_iff, String.eqb_eq, String.eqb_neq,
      ltb_true in Hin.
    exists coin. intuition congruence.
  - intros (coin & Hin & Hne & Hpos & ->). exists (coin, b).
    split; [reflexivity |].
    rewrite list_elem_of_In, filter_In, <- list_elem_of_In. cbn [fst snd].
    rewrite !andb_true_iff, negb_true_iff, String.eqb_eq, String.eqb_neq,
      ltb_true.
    tauto.
Qed.

Lemma last_is_Some_exists {A} (l : list A) :
  is_Some (last l) <-> exists x, x ∈ l.
Proof.
  rewrite last_is_Some. split.
  - destruct l as [| x l]; [congruence |]. exists x. left.
  - intros [x Hx]. eapply elem_of_not_nil. exact Hx.
Qed.

Lemma refresh_membership (c : Client.t) (now : Q) (e : t) (s : string) :
  is_Some (positions (snd (get_positions_summary c now e)) !! s)
  <-> (exists d, Ledger.reports c s d)
      \/ (is_Some (positions e !! s) /\ exists b, Ledger.funds c s b).
Proof.
  rewrite refresh_at.
  pose proof (last_is_Some_exists (Ledger.listed c s)) as HL.
  pose proof (last_is_Some_exists (Ledger.balances c s)) as HB.
  setoid_rewrite listed_spec in HL. setoid_rewrite balances_spec in HB.
  rewrite <- HL, <- HB. unfold Ledger.merged.
  destruct (last (Ledger.listed c s)), (positions e !! s),
           (last (Ledger.balances c s));
    split; intros H; eauto;
    repeat match goal with
           | H : _ \/ _ |- _ => destruct H
           | H : _ /\ _ |- _ => destruct H
           | H : is_Some None |- _ => destruct H; discriminate
           end.
Qed.

(** X8. get_positions_summary rebuilds the ledger symbol by symbol: the
    entry is decided by the local record, the last listed futures position
    of positive size and the last positive wallet balance of the base
    coin.  A listed futures position wins over the local futures leg, a
    wallet balance overwrites the spot quantity, and a record that is
    neither listed nor funded is dropped. *)
Theorem refresh_is_per_symbol_merge (c : Client.t) (now : Q) (e : t)
    (symbol : string) :
  positions (snd (get_positions_summary c now e)) !! symbol
  = Ledger.merged now (positions e !! symbol)
      (last (Ledger.listed c symbol)) (last (Ledger.balances c symbol)).
Proof. exact (refresh_at c now e symbol). Qed.

(** X9. After get_positions_summary a symbol is in the ledger exactly when
    the exchange lists a futures position of positive size for it, or it
    was in the ledger before and the wallet lists a positive balance of
    its base coin. *)
Theorem refresh_keeps_reported_or_funded (c : Client.t) (now : Q) (e : t)
    (symbol : string) :
  is_Some (positions (snd (get_positions_summary c now e)) !! symbol)
  <-> (exists d, Ledger.reports c symbol d)
      \/ (is_Some (positions e !! symbol)
          /\ exists balance, Ledger.funds c symbol balance).
Proof. exact (refresh_membership c now e symbol). Qed.

(** X10. An entry of the refreshed ledger either carries the futures
    quantity, average price and unrealised P&L of a listed futures
    position, with the entry attributes of the local record when there was
    one and the defaults of an adopted position otherwise, or no futures
    position is listed for it and it is the local record with its spot
    quantity set to a wallet balance. *)
Theorem refreshed_futures_leg_is_reported (c : Client.t) (now : Q) (e : t)
    (symbol : string) (position : Position.t) :
  positions (snd (get_positions_summary c now e)) !! symbol = Some position ->
  (exists d,
     Ledger.reports c symbol d /\ Ledger.carries d position
     /\ (forall local, positions e !! symbol = Some local ->
          Ledger.entry_attributes position = Ledger.entry_attributes local)
     /\ (positions e !! symbol = None ->
          Ledger.entry_attributes position
          = (symbol, 0, 0, now, 1%Z, 0, 0, 0)))
  \/ ((forall d, ~ Ledger.reports c symbol d)
      /\ exists local balance,
           positions e !! symbol = Some local
           /\ Ledger.funds c symbol balance
           /\ position = Position.set_spot_qty balance local).
Proof.
  rewrite refresh_at. unfold Ledger.merged.
  destruct (last (Ledger.listed c symbol)) as [d |] eqn:HL.
  - intros Hp. left. exists d.
    apply last_Some_elem_of, listed_spec in HL.
    assert (Hs : PositionData.symbol d = symbol) by apply HL.
    split; [exact HL |].
    destruct (positions e !! symbol) as [local |],
             (last (Ledger.balances c symbol));
      injection Hp as <-;
      (split; [repeat split |]); split;
      try (intros local' [= <-]); try discriminate; try reflexivity;
      intros _; unfold Ledger.entry_attributes; cbn; rewrite Hs; reflexivity.
  - intros Hp. right. apply last_None in HL. split.
    + intros d Hd. apply listed_spec in Hd. rewrite HL in Hd.
      exact (not_elem_of_nil _ Hd).
    + destruct (positions e !! symbol) as [local |]; [| discriminate].
      destruct (last (Ledger.balances c symbol)) as [b |] eqn:HB;
        [| discriminate].
      injection Hp as <-. exists local, b.
      apply last_Some_elem_of, balances_spec in HB. auto.
Qed.

Lemma refreshed_futures_leg_is_reported_witness :
  let c := Spec.sol_exchange 5 7 in
  let e := Spec.holding (Spec.sol_position 5 3) in
  exists position,
    positions (snd (get_positions_summary c 1000060 e)) !! "SOLUSDT"%string
      = Some position
    /\ Position.futures_qty position == -5
    /\ Position.spot_qty position == 7
    /\ Position.entry_time position == 1000000.
Proof.
  cbv zeta. eexists. split; [vm_compute; reflexivity |].
  destruct (refreshed_futures_leg_is_reported
              (Spec.sol_exchange 5 7) 1000060
              (Spec.holding (Spec.sol_position 5 3)) "SOLUSDT"
              (Position.set_spot_qty 7
                 (Ledger.overwrite_futures (Spec.sol_short 5)
                    (Spec.sol_position 5 3))))
    as [(d & Hd & Hc & _) | (Hno & _)].
  - vm_compute. reflexivity.
  - vm_compute. repeat split; reflexivity.
  - exfalso. apply (Hno (Spec.sol_short 5)).
    split; [left | split; [reflexivity | vm_compute; reflexivity]].
Defined.
End Reconciliation.

(** ** Exit, continued *)

Section ExitMore.
Import ArbitrageEngine.
Local Open Scope Q_scope.

(** X11. When the exchange lists neither a futures position nor a wallet
    balance for the symbol, close_position fails with "position not
    found", appends nothing to the history, and the local record, if there
    was one, is gone from the ledger. *)
Theorem close_needs_exchange_confirmation (c : Client.t) (now : Q) (e : t)
    (symbol : string) :
  (forall d, ~ Ledger.reports c symbol d) ->
  (forall balance, ~ Ledger.funds c symbol balance) ->
  fst (close_position c now e symbol) = TradingResult.failed PositionNotFound
  /\ positions (snd (close_position c now e symbol)) !! symbol = None
  /\ closed_positions (snd (close_position c now e symbol))
     = closed_positions e.
Proof.
  intros Hno_report Hno_funds.
  assert (Hgone : positions (snd (get_positions_summary c now e)) !! symbol
                  = None).
  { apply eq_None_not_Some. rewrite refresh_membership.
    intros [[d Hd] | [_ [b Hb]]]; [exact (Hno_report d Hd) |
                                   exact (Hno_funds b Hb)]. }
  unfold close_position. rewrite Hgone. cbn [fail fst snd].
  repeat split; [exact Hgone].
Qed.

Lemma close_needs_exchange_confirmation_witness :
  let c := Spec.exchange false 100 100 None [] [] in
  let e := Spec.holding (Spec.sol_position 5 (-5)) in
  is_Some (positions e !! "SOLUSDT"%string)
  /\ fst (close_position c 1000060 e "SOLUSDT")
     = TradingResult.failed PositionNotFound
  /\ positions (snd (close_position c 1000060 e "SOLUSDT"))
       !! "SOLUSDT"%string = None.
Proof.
  cbv zeta. split; [vm_compute; eauto |].
  destruct (close_needs_exchange_confirmation
              (Spec.exchange false 100 100 None [] []) 1000060
              (Spec.holding (Spec.sol_position 5 (-5))) "SOLUSDT")
    as (Hf & Hp & _).
  - intros d [Hin _]. vm_compute in Hin. inversion Hin.
  - intros b (coin & Hin & _). vm_compute in Hin. inversion Hin.
  - split; [exact Hf | exact Hp].
Defined.

(** X12. A successful close_position reports a spot quantity that is the
    held spot quantity or the size of the futures leg, whichever is
    smaller, and a futures quantity equal to the size of the futures
    leg. *)
Theorem close_sells_no_more_than_hedged (c : Client.t) (now : Q) (e : t)
    (symbol : string) :
  let out := close_position c now e symbol in
  TradingResult.success (fst out) = true ->
  exists position,
    positions (snd (get_positions_summary c now e)) !! symbol = Some position
    /\ TradingResult.spot_qty (fst out) <= Position.spot_qty position
    /\ TradingResult.spot_qty (fst out) <= Qabs (Position.futures_qty position)
    /\ TradingResult.futures_qty (fst out)
       = Qabs (Position.futures_qty position)
    /\ (TradingResult.spot_qty (fst out) = Position.spot_qty position
        \/ TradingResult.spot_qty (fst out)
           = Qabs (Position.futures_qty position)).
Proof.
  intros out. subst out. unfold close_position, fail.
  repeat case_match;
    cbn [fst snd TradingResult.success TradingResult.failed
         TradingResult.spot_qty TradingResult.futures_qty];
    intros Hok; try discriminate Hok.
  all: eexists; split; [reflexivity |];
    split; [apply min_bounds |]; split; [apply min_bounds |];
    split; [reflexivity | apply min_cases].
Qed.

Lemma close_sells_no_more_than_hedged_witness :
  let c := Spec.sol_exchange 5 7 in
  let e := Spec.holding (Spec.sol_position 7 (-5)) in
  TradingResult.spot_qty (fst (close_position c 1000060 e "SOLUSDT")) <= 5.
Proof.
  cbv zeta.
  destruct (close_sells_no_more_than_hedged (Spec.sol_exchange 5 7) 1000060
              (Spec.holding (Spec.sol_position 7 (-5))) "SOLUSDT")
    as (position & Hpos & _ & Hle & _).
  - vm_compute. reflexivity.
  - vm_compute in Hpos. injection Hpos as <-. exact Hle.
Defined.

(** X13. With a funding rate available and k >= 0 whole 8-hour periods
    elapsed since entry (8k <= holding hours < 8(k+1)),
    calculate_funding_income is |futures_qty| * futures_avg_price * rate
    * k; in particular it is zero before the first 8 hours are over. *)
Theorem funding_income_counts_whole_periods (c : Client.t) (now : Q)
    (position : Position.t) (close_quantity rate : Q) (periods : Z) :
  let holding_hours := (now - Position.entry_time position) / 3600 in
  get_funding_rate c (Position.symbol position) = Some rate ->
  (0 <= periods)%Z ->
  inject_Z periods * 8 <= holding_hours ->
  holding_hours < (inject_Z periods + 1) * 8 ->
  calculate_funding_income c now position close_quantity
  == Qabs (Position.futures_qty position)
     * Position.futures_avg_price position * rate * inject_Z periods.
Proof.
  intros hours Hrate Hk Hlo Hhi. unfold calculate_funding_income.
  rewrite Hrate. fold hours.
  assert (Hint : Py.int (hours / 8) = periods).
  { assert (E : hours / 8 == hours * (1 # 8)) by field.
    apply int_of_nonneg; [exact Hk | rewrite E; lra | rewrite E; lra]. }
  rewrite Hint.
  destruct (Py.truthy rate) eqn:Ht.
  - destruct (periods <=? 0)%Z eqn:Hz; [| reflexivity].
    apply Z.leb_le in Hz. assert (Hp0 : periods = 0%Z) by lia.
    rewrite Hp0. change (inject_Z 0) with 0. ring.
  - unfold Py.truthy in Ht. apply negb_false_iff, Qeq_bool_eq in Ht.
    rewrite Ht. ring.
Qed.

Lemma funding_income_counts_whole_periods_witness :
  calculate_funding_income (Spec.sol_exchange 5 5) (1000000 + 20 * 3600)
    (Spec.sol_position 5 (-5)) 5
  == 5 * 100 * (3 # 10000) * 2.
Proof.
  rewrite (funding_income_counts_whole_periods (Spec.sol_exchange 5 5)
             (1000000 + 20 * 3600) (Spec.sol_position 5 (-5)) 5
             (3 # 10000) 2);
    try (vm_compute; reflexivity); try lia; try (vm_compute; discriminate).
Defined.
End ExitMore.

(** ** History *)

Section HistoryFacts.
Import ArbitrageEngine History.
Local Open Scope Q_scope.

Lemma summary_formula (e : t) :
  get_closed_positions_summary e
  = {| ClosedSummary.total_closed := List.length (closed_positions e);
       ClosedSummary.total_pnl :=
         py_sum (ClosedPosition.total_pnl <$> closed_positions e);
       ClosedSummary.total_investment :=
         py_sum (ClosedPosition.total_investment <$> closed_positions e);
       ClosedSummary.positions := closed_positions e |}.
Proof.
  unfold get_closed_positions_summary.
  destruct (closed_positions e); reflexivity.
Qed.

Lemma py_sum_snoc (l : list Q) (x : Q) : py_sum (l ++ [x]) = py_sum l + x.
Proof. unfold py_sum. rewrite foldl_app. reflexivity. Qed.

Lemma close_appends_one (c : Client.t) (now : Q) (e : t) (symbol : string) :
  TradingResult.success (fst (close_position c now e symbol)) = true ->
  exists closed,
    closed_positions (snd (close_position c now e symbol))
    = closed_positions e ++ [closed].
Proof.
  unfold close_position, fail.
  repeat case_match;
    cbn [fst snd TradingResult.success TradingResult.failed
         closed_positions set_rules_manager set_positions];
    intros Hok; try discriminate Hok; eexists; reflexivity.
Qed.

(** X14. A successful close_position adds exactly one record to what
    get_closed_positions_summary reports: the count grows by one and the
    P&L and investment totals grow by the record's values. *)
Theorem close_adds_to_closed_summary (c : Client.t) (now : Q) (e : t)
    (symbol : string) :
  let out := close_position c now e symbol in
  let before := get_closed_positions_summary e in
  let after := get_closed_positions_summary (snd out) in
  TradingResult.success (fst out) = true ->
  exists closed,
    ClosedSummary.positions after = ClosedSummary.positions before ++ [closed]
    /\ ClosedSummary.total_closed after = S (ClosedSummary.total_closed before)
    /\ ClosedSummary.total_pnl after
       = ClosedSummary.total_pnl before + ClosedPosition.total_pnl closed
    /\ ClosedSummary.total_investment after
       = ClosedSummary.total_investment before
         + ClosedPosition.total_investment closed.
Proof.
  intros out before after Hok. subst out before after.
  destruct (close_appends_one c now e symbol Hok) as [closed Hc].
  exists closed. rewrite !summary_formula, Hc.
  cbn [ClosedSummary.positions ClosedSummary.total_closed
       ClosedSummary.total_pnl ClosedSummary.total_investment].
  rewrite !fmap_snoc, !py_sum_snoc, length_app. cbn [List.length].
  repeat split. lia.
Qed.

Lemma close_adds_to_closed_summary_witness :
  let c := Spec.sol_exchange 5 5 in
  let opened := snd (one_click_arbitrage c 1000000 init "SOLUSDT" 1000 1) in
  let out := close_position c 1000060 opened "SOLUSDT" in
  ClosedSummary.total_closed (get_closed_positions_summary (snd out)) = 1%nat.
Proof.
  cbv zeta.
  destruct (close_adds_to_closed_summary (Spec.sol_exchange 5 5) 1000060
              (snd (one_click_arbitrage (Spec.sol_exchange 5 5) 1000000 init
                      "SOLUSDT" 1000 1)) "SOLUSDT")
    as (closed & _ & Hn & _).
  - vm_compute. reflexivity.
  - rewrite Hn. reflexivity.
Defined.
End HistoryFacts.

(** ** Scanner and first-generation entry *)

Section ScannerFacts.
Import ArbitrageEngine Scanner.
Local Open Scope Q_scope.

Lemma truthy_nonzero (p : Q) : Py.truthy p = true <-> ~ p == 0.
Proof.
  unfold Py.truthy. rewrite negb_true_iff. split.
  - apply Qeq_bool_neq.
  - intros H. destruct (Qeq_bool p 0) eqn:E; [| reflexivity].
    apply Qeq_bool_eq in E. contradiction.
Qed.

Lemma usable_price_None (o : option Q) :
  usable_price o = None <-> o = None \/ exists p, o = Some p /\ p == 0.
Proof.
  unfold usable_price. destruct o as [p |]; [| tauto].
  destruct (Py.truthy p) eqn:E.
  - apply truthy_nonzero in E. split; [discriminate |].
    intros [H | (p' & [= <-] & H)]; [discriminate | contradiction].
  - split; [| reflexivity]. intros _. right. exists p. split; [reflexivity |].
    unfold Py.truthy in E. apply negb_false_iff, Qeq_bool_eq in E. exact E.
Qed.

Lemma usable_price_Some (o : option Q) (p : Q) :
  usable_price o = Some p <-> o = Some p /\ ~ p == 0.
Proof.
  unfold usable_price. destruct o as [q |]; [| split; [discriminate | intros [H _]; discriminate]].
  destruct (Py.truthy q) eqn:E.
  - apply truthy_nonzero in E. split.
    + intros [= <-]. auto.
    + intros [[= <-] _]. reflexivity.
  - split; [discriminate |]. intros [[= <-] Hn].
    apply truthy_nonzero in Hn. congruence.
Qed.

(** X15. calculate_arbitrage_opportunity yields nothing exactly when the
    spot or the futures price is missing or zero, or the funding rate is
    missing (a zero funding rate is evaluated).  When it yields an
    opportunity, that one carries the three inputs, a spread percentage
    with pct * spot == 100 * (futures - spot), and a projected profit of
    300 times the funding rate. *)
Theorem evaluation_needs_every_input (c : Client.t) (now : Q)
    (symbol : string) :
  let unusable := fun price : option Q =>
    price = None \/ exists p, price = Some p /\ p == 0 in
  (calculate_arbitrage_opportunity c now symbol = None
   <-> unusable (get_spot_price c symbol)
       \/ unusable (get_futures_price c symbol)
       \/ get_funding_rate c symbol = None)
  /\ forall o, calculate_arbitrage_opportunity c now symbol = Some o ->
       get_spot_price c symbol = Some (ArbitrageOpportunity.spot_price o)
       /\ get_futures_price c symbol
          = Some (ArbitrageOpportunity.futures_price o)
       /\ get_funding_rate c symbol
          = Some (ArbitrageOpportunity.funding_rate o)
       /\ ArbitrageOpportunity.price_difference_percent o
          * ArbitrageOpportunity.spot_price o
          == 100 * (ArbitrageOpportunity.futures_price o
                    - ArbitrageOpportunity.spot_price o)
       /\ ArbitrageOpportunity.potential_profit o
          == 300 * ArbitrageOpportunity.funding_rate o.
Proof.
  intros unusable. subst unusable. unfold calculate_arbitrage_opportunity.
  split.
  - rewrite <- !usable_price_None.
    destruct (usable_price (get_spot_price c symbol)),
             (usable_price (get_futures_price c symbol)),
             (get_funding_rate c symbol);
      split; intros H; try reflexivity; try discriminate; auto;
      destruct H as [H | [H | H]]; discriminate.
  - intros o.
    destruct (usable_price (get_spot_price c symbol)) as [sp |] eqn:Es;
      [| discriminate].
    destruct (usable_price (get_futures_price c symbol)) as [fp |] eqn:Ef;
      [| discriminate].
    destruct (get_funding_rate c symbol) as [fr |]; [| discriminate].
    intros [= <-]. cbn.
    apply usable_price_Some in Es, Ef. destruct Es as [-> Hsp], Ef as [-> _].
    repeat split; [field; exact Hsp | ring].
Qed.

(** X16. execute_arbitrage either returns False and leaves the engine
    untouched, or returns True and stores one position whose two legs
    have the same notional: spot_qty * spot_price and
    futures_qty * futures_price both equal the amount. *)
Theorem first_generation_entry_matches_notional (c : Client.t) (now : Q)
    (e : t) (symbol : string) (amount : Q) :
  let out := execute_arbitrage c now e symbol amount in
  (fst out = false /\ snd out = e)
  \/ (fst out = true
      /\ exists position spot_price futures_price,
           get_spot_price c symbol = Some spot_price
           /\ get_futures_price c symbol = Some futures_price
           /\ snd out = set_positions (<[symbol := position]> (positions e)) e
           /\ Position.spot_qty position * spot_price == amount
           /\ Position.futures_qty position * futures_price == amount).
Proof.
  intros out. subst out. unfold execute_arbitrage.
  destruct (usable_price (get_spot_price c symbol)) as [sp |] eqn:Es;
    [| left; split; reflexivity].
  destruct (usable_price (get_futures_price c symbol)) as [fp |] eqn:Ef;
    [| left; split; reflexivity].
  apply usable_price_Some in Es, Ef. destruct Es as [Es Hsp], Ef as [Ef Hfp].
  repeat case_match; cbn [fst snd]; try (left; split; reflexivity).
  right. split; [reflexivity |]. do 3 eexists.
  split; [exact Es |]. split; [exact Ef |]. split; [reflexivity |].
  cbn [Position.spot_qty Position.futures_qty]. split; field; assumption.
Qed.
End ScannerFacts.

Section ScanOrder.
Import ArbitrageEngine Scanner.
Local Open Scope Q_scope.

Lemma collect_fold (c : Client.t) (now : Q) (symbols : list string)
    (acc : list ArbitrageOpportunity.t) :
  foldl (collect c now) acc symbols
  = acc ++ List.filter
             (fun o => Py.ltb Config.MIN_FUNDING_RATE
                         (ArbitrageOpportunity.funding_rate o))
             (omap (calculate_arbitrage_opportunity c now) symbols).
Proof.
  revert acc. induction symbols as [| s symbols IH]; intros acc.
  - cbn. rewrite app_nil_r. reflexivity.
  - cbn [foldl omap list_omap]. rewrite IH. unfold collect.
    destruct (calculate_arbitrage_opportunity c now s) as [o |];
      [| reflexivity].
    cbn [List.filter].
    destruct (Py.ltb Config.MIN_FUNDING_RATE
                (ArbitrageOpportunity.funding_rate o));
      [rewrite <- app_assoc |]; reflexivity.
Qed.

Lemma insert_by_profit_perm (o : ArbitrageOpportunity.t)
    (l : list ArbitrageOpportunity.t) :
  insert_by_profit o l ≡ₚ o :: l.
Proof.
  induction l as [| y l IH]; [reflexivity |]. cbn [insert_by_profit].
  destruct (Py.ltb _ _); [| reflexivity].
  rewrite IH. apply Permutation_swap.
Qed.

Lemma sort_by_profit_perm (l : list ArbitrageOpportunity.t) :
  sort_by_profit l ≡ₚ l.
Proof.
  induction l as [| o l IH]; [reflexivity |].
  unfold sort_by_profit in *. cbn [foldr].
  rewrite insert_by_profit_perm, IH. reflexivity.
Qed.

Lemma insert_by_profit_sorted (o : ArbitrageOpportunity.t)
    (l : list ArbitrageOpportunity.t) :
  StronglySorted
    (fun a b => ArbitrageOpportunity.potential_profit b
                <= ArbitrageOpportunity.potential_profit a) l ->
  StronglySorted
    (fun a b => ArbitrageOpportunity.potential_profit b
                <= ArbitrageOpportunity.potential_profit a)
    (insert_by_profit o l).
Proof.
  induction l as [| y l IH]; intros Hs; cbn [insert_by_profit].
  - constructor; constructor.
  - apply StronglySorted_inv in Hs. destruct Hs as [Hl Hy].
    destruct (Py.ltb _ _) eqn:E.
    + apply ltb_true in E. constructor; [apply IH; exact Hl |].
      rewrite insert_by_profit_perm. constructor; [lra | exact Hy].
    + apply ltb_false in E. constructor; [constructor; assumption |].
      constructor; [exact E |].
      eapply Forall_impl; [exact Hy |]. cbn. intros z Hz. lra.
Qed.

Lemma sort_by_profit_sorted (l : list ArbitrageOpportunity.t) :
  StronglySorted
    (fun a b => ArbitrageOpportunity.potential_profit b
                <= ArbitrageOpportunity.potential_profit a)
    (sort_by_profit l).
Proof.
  induction l as [| o l IH]; [constructor |].
  unfold sort_by_profit in *. cbn [foldr].
  apply insert_by_profit_sorted. exact IH.
Qed.

Lemma insert_by_profit_keeps_ties (k : Q) (o : ArbitrageOpportunity.t)
    (l : list ArbitrageOpportunity.t) :
  List.filter (fun x => Qeq_bool (ArbitrageOpportunity.potential_profit x) k)
    (insert_by_profit o l)
  = List.filter (fun x => Qeq_bool (ArbitrageOpportunity.potential_profit x) k)
      (o :: l).
Proof.
  induction l as [| y l IH]; [reflexivity |]. cbn [insert_by_profit].
  destruct (Py.ltb _ _) eqn:E; [| reflexivity].
  apply ltb_true in E. cbn [List.filter] in *. rewrite IH.
  destruct (Qeq_bool (ArbitrageOpportunity.potential_profit o) k) eqn:Eo;
    [| reflexivity].
  destruct (Qeq_bool (ArbitrageOpportunity.potential_profit y) k) eqn:Ey;
    [| reflexivity].
  apply Qeq_bool_eq in Eo, Ey. lra.
Qed.

Lemma sort_by_profit_keeps_ties (k : Q) (l : list ArbitrageOpportunity.t) :
  List.filter (fun x => Qeq_bool (ArbitrageOpportunity.potential_profit x) k)
    (sort_by_profit l)
  = List.filter (fun x => Qeq_bool (ArbitrageOpportunity.potential_profit x) k)
      l.
Proof.
  induction l as [| o l IH]; [reflexivity |].
  unfold sort_by_profit in *. cbn [foldr].
  rewrite insert_by_profit_keeps_ties. cbn [List.filter]. rewrite IH.
  reflexivity.
Qed.

(** X17. scan_opportunities returns, in another order, exactly the
    evaluations of the scanned symbols whose funding rate exceeds 0.0001;
    the result is in descending order of projected profit, hence of
    funding rate. *)
Theorem scan_returns_ranked_candidates (c : Client.t) (now : Q)
    (symbols : list string) :
  let candidates :=
    List.filter
      (fun o => Py.ltb Config.MIN_FUNDING_RATE
                  (ArbitrageOpportunity.funding_rate o))
      (omap (calculate_arbitrage_opportunity c now) symbols) in
  scan_opportunities c now symbols ≡ₚ candidates
  /\ Forall (fun o => 1 # 10000 < ArbitrageOpportunity.funding_rate o)
       (scan_opportunities c now symbols)
  /\ StronglySorted
       (fun a b => ArbitrageOpportunity.potential_profit b
                   <= ArbitrageOpportunity.potential_profit a)
       (scan_opportunities c now symbols)
  /\ StronglySorted
       (fun a b => ArbitrageOpportunity.funding_rate b
                   <= ArbitrageOpportunity.funding_rate a)
       (scan_opportunities c now symbols).
Proof.
  intros candidates. unfold scan_opportunities.
  rewrite collect_fold. cbn [app]. fold candidates.
  assert (Hperm : sort_by_profit candidates ≡ₚ candidates)
    by apply sort_by_profit_perm.
  assert (Hcand : Forall (fun o =>
                    1 # 10000 < ArbitrageOpportunity.funding_rate o
                    /\ ArbitrageOpportunity.potential_profit o
                       == 300 * ArbitrageOpportunity.funding_rate o)
                    candidates).
  { apply Forall_forall. intros o Ho. subst candidates.
    apply list_elem_of_In, filter_In in Ho. destruct Ho as [Ho Hrate].
    apply ltb_true in Hrate. split; [exact Hrate |].
    apply list_elem_of_In, list_elem_of_omap in Ho.
    destruct Ho as (s & _ & Hs).
    unfold calculate_arbitrage_opportunity in Hs.
    repeat case_match; try discriminate. injection Hs as <-. cbn. ring. }
  rewrite <- Hperm in Hcand.
  split; [exact Hperm |].
  split; [eapply Forall_impl; [exact Hcand |]; cbn; tauto |].
  pose proof (sort_by_profit_sorted candidates) as Hsorted.
  split; [exact Hsorted |].
  revert Hsorted Hcand. generalize (sort_by_profit candidates).
  induction 1 as [| a l _ IH Ha]; intros Hall; [constructor |].
  apply Forall_cons in Hall. destruct Hall as [[_ Hpa] Hall].
  constructor; [apply IH; exact Hall |].
  rewrite Forall_forall in Ha, Hall |- *. intros b Hb.
  specialize (Ha b Hb). destruct (Hall b Hb) as [_ Hpb]. cbn in Ha. lra.
Qed.

(** X18. Opportunities with the same projected profit come out of
    scan_opportunities in the order in which their symbols were scanned. *)
Theorem scan_keeps_ties_in_scan_order (c : Client.t) (now : Q)
    (symbols : list string) (profit : Q) :
  let tied := List.filter
    (fun o => Qeq_bool (ArbitrageOpportunity.potential_profit o) profit) in
  tied (scan_opportunities c now symbols)
  = tied (List.filter
            (fun o => Py.ltb Config.MIN_FUNDING_RATE
                        (ArbitrageOpportunity.funding_rate o))
            (omap (calculate_arbitrage_opportunity c now) symbols)).
Proof.
  intros tied. subst tied. unfold scan_opportunities.
  rewrite collect_fold. cbn [app]. apply sort_by_profit_keeps_ties.
Qed.
End ScanOrder.

Section SymbolForms.
Import ArbitrageEngine.

Lemma string_length_app (s t : string) :
  String.length (s ++ t) = (String.length s + String.length t)%nat.
Proof.
  induction s as [| a s IH]; [reflexivity |].
  change (String a s ++ t)%string with (String a (s ++ t)).
  cbn [String.length]. rewrite IH. reflexivity.
Qed.

Lemma substring_whole (t : string) : String.substring 0 (String.length t) t = t.
Proof. induction t as [| a t IH]; cbn; [reflexivity | f_equal; exact IH]. Qed.

Lemma substring_suffix (s t : string) :
  String.substring (String.length s) (String.length t) (s ++ t) = t.
Proof.
  induction s as [| a s IH]; [apply substring_whole |].
  change (String a s ++ t)%string with (String a (s ++ t)).
  cbn [String.length String.substring]. exact IH.
Qed.

Lemma endswith_app (s t : string) : Py.endswith (s ++ t) t = true.
Proof.
  unfold Py.endswith. rewrite string_length_app.
  replace (String.length s + String.length t - String.length t)%nat
    with (String.length s) by lia.
  rewrite substring_suffix, String.eqb_refl, andb_true_r.
  apply Nat.leb_le. lia.
Qed.

(** X19. For a symbol that does not end in USDT the price lookups ask for
    the symbol with USDT appended, so they agree with the lookups of the
    completed symbol, while the funding-rate lookup asks for the symbol as
    given. *)
Theorem price_lookup_completes_symbol (c : Client.t) (base : string) :
  Py.endswith base "USDT" = false ->
  get_spot_price c base = get_spot_price c (base ++ "USDT")
  /\ get_futures_price c base = get_futures_price c (base ++ "USDT")
  /\ get_funding_rate c base
     = Client.get_tickers c Linear base ≫= Ticker.fundingRate.
Proof.
  intros Hbase. unfold get_spot_price, get_futures_price, get_funding_rate,
    usdt_symbol.
  rewrite Hbase, endswith_app. cbn [negb].
  repeat split.
Qed.

Lemma price_lookup_completes_symbol_witness :
  get_spot_price (Spec.sol_exchange 5 5) "SOL"
  = get_spot_price (Spec.sol_exchange 5 5) "SOLUSDT".
Proof.
  apply (price_lookup_completes_symbol (Spec.sol_exchange 5 5) "SOL").
  vm_compute. reflexivity.
Defined.
End SymbolForms.

Section Gates.
Import ArbitrageEngine.
Local Open Scope Q_scope.

Lemma tips_min_investment (c : Client.t) (now : Q)
    (m : TradingRulesManager.t) (symbol : string) :
  Tips.min_investment (fst (TradingRulesManager.get_trading_tips c now m symbol))
  = fst (TradingRulesManager.get_min_investment_amount c now m symbol 1).
Proof.
  unfold TradingRulesManager.get_trading_tips,
    TradingRulesManager.get_min_investment_amount.
  pose proof (lookup_repeats_at_same_instant c c now m symbol false) as Hrep.
  cbv zeta in Hrep.
  destruct (TradingRulesManager.get_trading_rules c now m symbol false)
    as [rules m1].
  cbn [fst snd] in *. rewrite Hrep.
  destruct (Client.demo c); reflexivity.
Qed.

(** X20. A successful one_click_arbitrage has a total amount of at least
    the minimum investment computed for leverage 1, whatever leverage was
    requested. *)
Theorem entry_gate_is_taken_at_leverage_1 (c : Client.t) (now : Q) (e : t)
    (symbol : string) (total_amount : Q) (leverage : Z) :
  let out := one_click_arbitrage c now e symbol total_amount leverage in
  let floor :=
    fst (TradingRulesManager.get_min_investment_amount c now (rules_manager e)
           symbol 1) in
  TradingResult.success (fst out) = true -> floor <= total_amount.
Proof.
  intros out floor. subst out floor.
  rewrite <- tips_min_investment.
  unfold one_click_arbitrage, fail.
  destruct (TradingRulesManager.get_trading_tips c now (rules_manager e) symbol)
    as [tips m1].
  cbn [fst snd].
  repeat case_match; cbn [fst TradingResult.success TradingResult.failed];
    intros Hok; try discriminate Hok.
  all: match goal with
       | H : Py.ltb _ (Tips.min_investment _) = false |- _ =>
           apply ltb_false in H; exact H
       end.
Qed.

Lemma entry_gate_is_taken_at_leverage_1_witness :
  fst (TradingRulesManager.get_min_investment_amount
         (Spec.exchange true 100 100 None [] []) 1000000
         (rules_manager init) "SOLUSDT" 1)
  <= 1500.
Proof.
  apply (entry_gate_is_taken_at_leverage_1
           (Spec.exchange true 100 100 None [] []) 1000000 init
           "SOLUSDT" 1500 3).
  vm_compute. reflexivity.
Defined.

Lemma refusing_same_but_orders (symbol : string) (side : Side) (qty : Q)
    (category : Category) (c : Client.t) :
  Orders.same_but_orders c (Orders.refusing symbol side qty category c).
Proof. repeat split. Qed.

Lemma refresh_same_but_orders (c c' : Client.t) (now : Q) (e : t) :
  Orders.same_but_orders c c' ->
  get_positions_summary c' now e = get_positions_summary c now e.
Proof.
  intros (_ & _ & _ & Hp & Hb). unfold get_positions_summary.
  rewrite Hp, Hb. reflexivity.
Qed.

Lemma prices_same_but_orders (c c' : Client.t) (symbol : string) :
  Orders.same_but_orders c c' ->
  get_spot_price c' symbol = get_spot_price c symbol
  /\ get_futures_price c' symbol = get_futures_price c symbol.
Proof.
  intros (_ & _ & Ht & _). unfold get_spot_price, get_futures_price.
  rewrite Ht. split; reflexivity.
Qed.

Lemma tips_same_but_orders (c c' : Client.t) (now : Q)
    (m : TradingRulesManager.t) (symbol : string) :
  Orders.same_but_orders c c' ->
  TradingRulesManager.get_trading_tips c' now m symbol
  = TradingRulesManager.get_trading_tips c now m symbol.
Proof.
  intros (Hd & Hi & _).
  unfold TradingRulesManager.get_trading_tips,
    TradingRulesManager.get_min_investment_amount,
    TradingRulesManager.get_trading_rules,
    TradingRulesManager._get_spot_rules, TradingRulesManager._get_linear_rules.
  rewrite Hd, Hi. reflexivity.
Qed.

Lemma funding_same_but_orders (c c' : Client.t) (now : Q)
    (position : Position.t) (close_quantity : Q) :
  Orders.same_but_orders c c' ->
  calculate_funding_income c' now position close_quantity
  = calculate_funding_income c now position close_quantity.
Proof.
  intros (_ & _ & Ht & _). unfold calculate_funding_income, get_funding_rate.
  rewrite Ht. reflexivity.
Qed.

Lemma close_success_orders (c : Client.t) (now : Q) (e : t) (symbol : string) :
  let out := close_position c now e symbol in
  let e1 := snd (get_positions_summary c now e) in
  let tips :=
    fst (TradingRulesManager.get_trading_tips c now (rules_manager e1) symbol) in
  TradingResult.success (fst out) = true ->
  exists position spot_id futures_id,
    positions e1 !! symbol = Some position
    /\ TradingResult.spot_qty (fst out)
       = Py.min (Position.spot_qty position)
           (Qabs (Position.futures_qty position))
    /\ TradingResult.futures_qty (fst out)
       = Qabs (Position.futures_qty position)
    /\ Client.place_order c symbol Sell
         (Py.round_ndigits (TradingResult.spot_qty (fst out))
            (Tips.qty_precision (Tips.spot_rules tips))) Spot
       = RetOk spot_id
    /\ Client.place_order c symbol Buy
         (Py.round_ndigits (TradingResult.futures_qty (fst out))
            (Tips.qty_precision (Tips.linear_rules tips))) Linear
       = RetOk futures_id.
Proof.
  intros out e1 tips. subst out e1 tips.
  unfold close_position, fail.
  repeat case_match;
    cbn [fst snd TradingResult.success TradingResult.failed
         TradingResult.spot_qty TradingResult.futures_qty] in *;
    intros Hok; try discriminate Hok; simplify_eq.
  all: do 3 eexists; split; [reflexivity |];
    split; [reflexivity |]; split; [reflexivity |];
    split; eassumption.
Qed.

Lemma close_reads_two_orders (c c' : Client.t) (now : Q) (e : t)
    (symbol : string) (position : Position.t) :
  let e1 := snd (get_positions_summary c now e) in
  let tips :=
    fst (TradingRulesManager.get_trading_tips c now (rules_manager e1) symbol) in
  let spot_order :=
    Py.round_ndigits
      (Py.min (Position.spot_qty position)
         (Qabs (Position.futures_qty position)))
      (Tips.qty_precision (Tips.spot_rules tips)) in
  let futures_order :=
    Py.round_ndigits (Qabs (Position.futures_qty position))
      (Tips.qty_precision (Tips.linear_rules tips)) in
  Orders.same_but_orders c c' ->
  positions e1 !! symbol = Some position ->
  Client.place_order c' symbol Sell spot_order Spot
  = Client.place_order c symbol Sell spot_order Spot ->
  Client.place_order c' symbol Buy futures_order Linear
  = Client.place_order c symbol Buy futures_order Linear ->
  close_position c' now e symbol = close_position c now e symbol.
Proof.
  intros e1 tips spot_order futures_order Hsame Hpos Hs Hf.
  subst e1 tips spot_order futures_order.
  unfold close_position.
  rewrite (refresh_same_but_orders c c' now e Hsame), Hpos.
  destruct (prices_same_but_orders c c' symbol Hsame) as [-> ->].
  destruct (usable_price (get_spot_price c symbol)); [| reflexivity].
  destruct (usable_price (get_futures_price c symbol)); [| reflexivity].
  rewrite (tips_same_but_orders c c' now _ symbol Hsame).
  destruct (TradingRulesManager.get_trading_tips c now
              (rules_manager (snd (get_positions_summary c now e))) symbol)
    as [tips m2].
  cbn [fst snd] in Hs, Hf.
  rewrite Hs.
  destruct (Client.place_order c symbol Sell _ Spot); try reflexivity.
  rewrite Hf.
  destruct (Client.place_order c symbol Buy _ Linear); try reflexivity.
  rewrite (funding_same_but_orders c c' now _ _ Hsame). reflexivity.
Qed.

(** X21. On a successful close_position the two orders sent are a spot
    sell and a linear buy whose quantities are decimals with the spot and
    the linear qty_precision digits, each within half a unit of the last
    digit of the reported close quantity: the reported quantities rounded
    to the precision.  Sent means: every exchange that differs from this
    one only in how it answers orders and under which the close succeeds
    has accepted these two orders, and the result of the close depends on
    the order endpoint through its answers to these two orders only. *)
Theorem close_orders_are_rounded_quantities (c : Client.t) (now : Q) (e : t)
    (symbol : string) :
  let out := close_position c now e symbol in
  let e1 := snd (get_positions_summary c now e) in
  let tips :=
    fst (TradingRulesManager.get_trading_tips c now (rules_manager e1) symbol) in
  let spot_digits := Tips.qty_precision (Tips.spot_rules tips) in
  let futures_digits := Tips.qty_precision (Tips.linear_rules tips) in
  TradingResult.success (fst out) = true ->
  exists spot_units futures_units : Z,
    let spot_order := Orders.decimal spot_units spot_digits in
    let futures_order := Orders.decimal futures_units futures_digits in
    Qabs (spot_order - TradingResult.spot_qty (fst out))
      <= (1 # 2) / Py.pow10 spot_digits
    /\ Qabs (futures_order - TradingResult.futures_qty (fst out))
      <= (1 # 2) / Py.pow10 futures_digits
    /\ (forall c', Orders.same_but_orders c c' ->
          TradingResult.success (fst (close_position c' now e symbol)) = true ->
          exists spot_id futures_id,
            Client.place_order c' symbol Sell spot_order Spot = RetOk spot_id
            /\ Client.place_order c' symbol Buy futures_order Linear
               = RetOk futures_id)
    /\ (forall c', Orders.same_but_orders c c' ->
          Client.place_order c' symbol Sell spot_order Spot
          = Client.place_order c symbol Sell spot_order Spot ->
          Client.place_order c' symbol Buy futures_order Linear
          = Client.place_order c symbol Buy futures_order Linear ->
          close_position c' now e symbol = out).
Proof.
  intros out e1 tips spot_digits futures_digits Hok.
  destruct (close_success_orders c now e symbol Hok)
    as (position & sid & fid & Hpos & Hsq & Hfq & _ & _).
  fold out e1 tips in Hpos, Hsq, Hfq.
  exists (Py.round (TradingResult.spot_qty (fst out) * Py.pow10 spot_digits)),
    (Py.round (TradingResult.futures_qty (fst out) * Py.pow10 futures_digits)).
  cbv zeta.
  change (Orders.decimal
            (Py.round (TradingResult.spot_qty (fst out) * Py.pow10 spot_digits))
            spot_digits)
    with (Py.round_ndigits (TradingResult.spot_qty (fst out)) spot_digits).
  change (Orders.decimal
            (Py.round
               (TradingResult.futures_qty (fst out) * Py.pow10 futures_digits))
            futures_digits)
    with (Py.round_ndigits (TradingResult.futures_qty (fst out))
            futures_digits).
  split; [apply round_ndigits_error |].
  split; [apply round_ndigits_error |].
  split.
  - intros c' Hsame Hok'.
    destruct (close_success_orders c' now e symbol Hok')
      as (position' & sid' & fid' & Hpos' & Hsq' & Hfq' & Hs' & Hf').
    rewrite (refresh_same_but_orders c c' now e Hsame) in Hpos', Hs', Hf'.
    rewrite (tips_same_but_orders c c' now _ symbol Hsame) in Hs', Hf'.
    fold e1 in Hpos', Hs', Hf'. fold tips in Hs', Hf'.
    assert (position' = position) by congruence. subst position'.
    rewrite Hsq' in Hs'. rewrite Hfq' in Hf'.
    rewrite <- Hsq in Hs'. rewrite <- Hfq in Hf'.
    exists sid', fid'. split; assumption.
  - intros c' Hsame Hs Hf.
    rewrite Hsq in Hs. rewrite Hfq in Hf.
    exact (close_reads_two_orders c c' now e symbol position Hsame Hpos Hs Hf).
Qed.

Lemma order_refused (symbol : string) (side : Side) (qty : Q)
    (category : Category) (c : Client.t) :
  Client.place_order (Orders.refusing symbol side qty category c)
    symbol side qty category
  = RetErr None.
Proof.
  unfold Orders.refusing. cbn [Client.place_order].
  rewrite String.eqb_refl.
  assert (Hq : Qeq_bool qty qty = true) by (apply Qeq_bool_iff; reflexivity).
  rewrite Hq. destruct side, category; reflexivity.
Qed.

Lemma close_orders_are_rounded_quantities_witness :
  let c := Spec.sol_exchange 5 (50005 # 10000) in
  let e := Spec.holding (Spec.sol_position (50005 # 10000) (-5)) in
  exists spot_units : Z,
    Qabs (Orders.decimal spot_units 3 - 5) <= 1 # 2000
    /\ TradingResult.success
         (fst (close_position
                 (Orders.refusing "SOLUSDT" Sell (Orders.decimal spot_units 3)
                    Spot c)
                 1000060 e "SOLUSDT"))
       = false.
Proof.
  cbv zeta.
  destruct (close_orders_are_rounded_quantities
              (Spec.sol_exchange 5 (50005 # 10000)) 1000060
              (Spec.holding (Spec.sol_position (50005 # 10000) (-5)))
              "SOLUSDT")
    as (ks & kf & Hb & _ & Hneeded & _).
  - vm_compute. reflexivity.
  - exists ks. split; [exact Hb |].
    destruct (TradingResult.success _) eqn:Hok; [exfalso | reflexivity].
    destruct (Hneeded _ (refusing_same_but_orders _ _ _ _ _) Hok)
      as (sid & _ & Hs & _).
    change (Client.place_order
              (Orders.refusing "SOLUSDT" Sell (Orders.decimal ks 3) Spot
                 (Spec.sol_exchange 5 (50005 # 10000)))
              "SOLUSDT" Sell (Orders.decimal ks 3) Spot = RetOk sid) in Hs.
    rewrite order_refused in Hs. discriminate Hs.
Defined.
End Gates.

(** ** Reconciliation and minimum investment, continued *)

Section Idempotence.
Import ArbitrageEngine.
Local Open Scope Q_scope.

(** X22. Reconciling twice against the same exchange answers gives the
    same engine as reconciling once, also when the second pass runs at a
    later time. *)
Theorem refresh_is_idempotent (c : Client.t) (now now' : Q) (e : t) :
  snd (get_positions_summary c now' (snd (get_positions_summary c now e)))
  = snd (get_positions_summary c now e).
Proof.
  assert (Hpos : positions (snd (get_positions_summary c now'
                                   (snd (get_positions_summary c now e))))
                 = positions (snd (get_positions_summary c now e))).
  { apply map_eq. intros s. rewrite (refresh_at c now'), !(refresh_at c now e).
    unfold Ledger.merged.
    destruct (last (Ledger.listed c s)), (positions e !! s),
             (last (Ledger.balances c s)); reflexivity. }
  unfold get_positions_summary in *. cbn [snd positions] in *.
  unfold set_positions in *. cbn [positions closed_positions rules_manager] in *.
  rewrite Hpos. reflexivity.
Qed.
End Idempotence.

Section LeverageAndFloor.
Import TradingRulesManager.
Local Open Scope Q_scope.

Lemma round_monotone (x y : Q) : x <= y -> (Py.round x <= Py.round y)%Z.
Proof.
  intros Hxy. destruct (Z.le_gt_cases (Py.round x) (Py.round y)) as [H | H];
    [exact H | exfalso].
  pose proof (round_error x) as Hx. pose proof (round_error y) as Hy.
  apply Qabs_Qle_condition in Hx, Hy.
  assert (Hge : inject_Z (Py.round y) + 1 <= inject_Z (Py.round x)).
  { change 1 with (inject_Z 1). rewrite <- inject_Z_plus, <- Zle_Qle. lia. }
  assert (Heq : x == y) by lra.
  apply round_comp in Heq. lia.
Qed.

Lemma round_ndigits_monotone (x y : Q) (n : nat) :
  x <= y -> Py.round_ndigits x n <= Py.round_ndigits y n.
Proof.
  intros Hxy. unfold Py.round_ndigits. pose proof (pow10_pos n) as Hp.
  unfold Qdiv. apply Qmult_le_compat_r.
  - rewrite <- Zle_Qle. apply round_monotone.
    apply Qmult_le_compat_r; [exact Hxy | lra].
  - apply Qlt_le_weak, Qinv_lt_0_compat. exact Hp.
Qed.

Lemma demo_min_qty_nonneg (symbol : string) : 0 <= _get_demo_min_qty symbol.
Proof.
  unfold _get_demo_min_qty, demo_limits. cbn [assoc_get].
  repeat match goal with
         | |- context [if ?b then _ else _] => destruct b
         end; discriminate.
Qed.

Lemma estimated_price_nonneg (symbol : string) : 0 <= estimated_price symbol.
Proof.
  unfold estimated_price.
  repeat match goal with
         | |- context [if ?b then _ else _] => destruct b
         end; discriminate.
Qed.

(** X23. For leverages 1 <= L <= L' and a non-negative linear minimum
    order amount, get_min_investment_amount at L' is at most the amount at
    L, against a live and against a demo exchange: a higher leverage never
    raises the minimum investment. *)
Theorem min_investment_not_raised_by_leverage (c : Client.t) (now : Q)
    (m : TradingRulesManager.t) (symbol : string) (L L' : Z) :
  let rules := fst (get_trading_rules c now m symbol false) in
  (1 <= L)%Z -> (L <= L')%Z ->
  0 <= MarketRules.min_order_amt (Rules.linear rules) ->
  fst (get_min_investment_amount c now m symbol L')
  <= fst (get_min_investment_amount c now m symbol L).
Proof.
  intros rules HL HLL Hlin. subst rules. unfold get_min_investment_amount.
  destruct (get_trading_rules c now m symbol false) as [rules m1].
  cbn [fst snd] in *.
  assert (Hl : 1 <= inject_Z L) by (rewrite Zle_Qle in HL; exact HL).
  assert (Hll : inject_Z L <= inject_Z L') by (rewrite <- Zle_Qle; exact HLL).
  assert (Hinv : / inject_Z L' <= / inject_Z L).
  { apply Qle_shift_inv_l; [lra |].
    assert (E : / inject_Z L' * inject_Z L == inject_Z L / inject_Z L')
      by (field; lra).
    rewrite E. apply Qle_shift_div_r; lra. }
  destruct (Client.demo c); cbn [fst]; apply round_ndigits_monotone.
  - pose proof (demo_min_qty_nonneg symbol) as Hq.
    pose proof (estimated_price_nonneg symbol) as Hp.
    set (a := _get_demo_min_qty symbol * estimated_price symbol).
    assert (Ha : 0 <= a) by (apply Qmult_le_0_compat; assumption).
    rewrite !inject_Z_plus. change (inject_Z 1) with 1.
    assert (E : forall l, 1 <= l ->
              a / (l / (l + 1)) * (12 # 10) == (a + a * / l) * (12 # 10))
      by (intros l Hl1; field; lra).
    rewrite (E _ Hl), (E (inject_Z L')) by lra.
    apply Qmult_le_compat_r; [| discriminate].
    apply Qplus_le_r. rewrite !(Qmult_comm a).
    apply Qmult_le_compat_r; assumption.
  - apply Qmult_le_compat_r; [| discriminate].
    set (s := MarketRules.min_order_amt (Rules.spot rules)) in *.
    set (f := MarketRules.min_order_amt (Rules.linear rules)) in *.
    assert (Hf : f / inject_Z L' <= f / inject_Z L).
    { unfold Qdiv. rewrite !(Qmult_comm f).
      apply Qmult_le_compat_r; assumption. }
    destruct (max_bounds s (f / inject_Z L)) as [H1 H2].
    destruct (max_cases s (f / inject_Z L')) as [-> | ->]; lra.
Qed.

Lemma min_investment_not_raised_by_leverage_witness :
  fst (get_min_investment_amount (Spec.listing Spec.rules_v2) 1000000 init
         "SOLUSDT" 3)
  <= fst (get_min_investment_amount (Spec.listing Spec.rules_v2) 1000000 init
            "SOLUSDT" 2).
Proof.
  apply (min_investment_not_raised_by_leverage (Spec.listing Spec.rules_v2)
           1000000 init "SOLUSDT" 2 3);
    [lia | lia | vm_compute; discriminate].
Defined.
End LeverageAndFloor.
